(** * Verification model of the autonomous ReAct agent of logSense

    Shallow embedding of [backend/agent/autonomous_agent.py]:
    the response parser [_parse_llm_response], the tool dispatcher
    [_execute_tool], the ReAct loop [investigate] and the planning
    extension [investigate_with_planning].

    Python strings are [string]s of the Standard Library; JSON values are
    the inductive [json]; the awaited calls (model, tools, stream callback)
    run in a small state-and-exception monad whose state records the
    agent's conversation history and a log of every call made to an
    external party. *)

From Stdlib Require Import String Ascii List ZArith QArith Bool Lia.
Import ListNotations.
Set Warnings "-register-all".
Open Scope nat_scope.
Open Scope string_scope.

(* ================================================================== *)
(** ** Python string operations *)

Module PyStr.

Definition dq : string := String (ascii_of_nat 34) EmptyString.

(** Source text is transcribed with [^] in place of the double quote. *)
Fixpoint dequote (s : string) : string :=
  match s with
  | EmptyString => EmptyString
  | String c r =>
      String (if Ascii.eqb c "^"%char then ascii_of_nat 34 else c) (dequote r)
  end.

(** [str.isspace] on the ASCII range. *)
Definition is_ws (c : ascii) : bool :=
  let n := nat_of_ascii c in
  (Nat.leb 9 n && Nat.leb n 13) || (Nat.leb 28 n && Nat.leb n 32).

Fixpoint lstrip_by (p : ascii -> bool) (s : string) : string :=
  match s with
  | EmptyString => EmptyString
  | String c r => if p c then lstrip_by p r else s
  end.

Fixpoint rev_str (s : string) : string :=
  match s with
  | EmptyString => EmptyString
  | String c r => rev_str r ++ String c EmptyString
  end.

Definition strip_by (p : ascii -> bool) (s : string) : string :=
  rev_str (lstrip_by p (rev_str (lstrip_by p s))).

(** [s.strip()] *)
Definition strip (s : string) : string := strip_by is_ws s.

(** [s.strip(chars)] *)
Definition strip_chars (chars s : string) : string :=
  strip_by (fun c => match String.index 0 (String c EmptyString) chars with
                     | Some _ => true | None => false end) s.

(** [s.startswith(p)] *)
Definition startswith (s p : string) : bool := String.prefix p s.

(** [sub in s] *)
Definition contains (sub s : string) : bool :=
  match String.index 0 sub s with Some _ => true | None => false end.

(** [s.split(sep)] for a non-empty separator. *)
Fixpoint split_fuel (fuel : nat) (sep s : string) : list string :=
  match fuel with
  | O => [s]
  | S f =>
      match String.index 0 sep s with
      | None => [s]
      | Some n =>
          substring 0 n s
            :: split_fuel f sep (substring (n + String.length sep)
                                   (String.length s) s)
      end
  end.

Definition split (sep s : string) : list string :=
  split_fuel (S (String.length s)) sep s.

(** [sep.join(xs)] *)
Definition join (sep : string) (xs : list string) : string :=
  String.concat sep xs.

(** [s.replace(old, new)] for a non-empty [old]. *)
Definition replace (old new s : string) : string := join new (split old s).

(** [xs[n]] where the index is known to exist. *)
Definition nth_str (n : nat) (xs : list string) : string := nth n xs "".

Definition nl : string := String (ascii_of_nat 10) EmptyString.

(** [str.isdigit] on the ASCII range. *)
Definition is_digit (c : ascii) : bool :=
  let n := nat_of_ascii c in Nat.leb 48 n && Nat.leb n 57.

(** [int(s)] for an already stripped [s]: an optional sign and decimal
    digits, single underscores allowed between digits; [None] stands for
    the [ValueError]. *)
Fixpoint int_body (s : string) (acc : Z) (last_digit : bool) : option Z :=
  match s with
  | EmptyString => if last_digit then Some acc else None
  | String c r =>
      if is_digit c
      then int_body r (acc * 10 + Z.of_nat (nat_of_ascii c - 48)) true
      else if Ascii.eqb c "_"%char && last_digit
           then int_body r acc false
           else None
  end.

Definition py_int (s : string) : option Z :=
  match s with
  | String c r =>
      if Ascii.eqb c "+"%char then int_body r 0 false
      else if Ascii.eqb c "-"%char then option_map Z.opp (int_body r 0 false)
      else int_body s 0 false
  | EmptyString => None
  end.

(** Position of the first / last occurrence of a character. *)
Definition find_char (c : ascii) (s : string) : option nat :=
  String.index 0 (String c EmptyString) s.

Fixpoint rfind_char_from (c : ascii) (s : string) (i : nat) : option nat :=
  match s with
  | EmptyString => None
  | String d r =>
      match rfind_char_from c r (S i) with
      | Some j => Some j
      | None => if Ascii.eqb c d then Some i else None
      end
  end.

(** [re.search(r'<o>.*<c>', s, re.DOTALL)]: the greedy match runs from
    the first opening character to the last closing character after it. *)
Definition re_search_span (o c : ascii) (s : string) : option string :=
  match find_char o s, rfind_char_from c s 0 with
  | Some i, Some j => if Nat.ltb i j then Some (substring i (S j - i) s) else None
  | _, _ => None
  end.

End PyStr.

Import PyStr.

(* ================================================================== *)
(** ** JSON values *)

(** JSON numbers are modelled by integers. *)
Inductive json : Type :=
| JNull
| JBool (b : bool)
| JInt (z : Z)
| JStr (s : string)
| JArr (l : list json)
| JObj (kv : list (string * json)).

(* ================================================================== *)
(** ** The parsed action: the dict built by [_parse_llm_response] *)

(** [AgentAction] *)
Inductive AgentAction := THINK | TOOL_CALL | ANSWER.

(** The dict [content]: [{"action": THINK, "reasoning": ...}],
    [{"action": TOOL_CALL, "tool": ..., "arguments": ...}] or
    [{"action": ANSWER, "root_cause": ..., "confidence": ...,
      "suggested_fixes": ..., "key_findings": ...}].
    The empty dict [{}] is [None] in [option parsed]. *)
Inductive parsed : Type :=
| PThink (reasoning : string)
| PToolCall (tool : option string) (arguments : json)
| PAnswer (root_cause : string) (confidence : Z)
          (suggested_fixes : json) (key_findings : json).

Definition parsed_action (p : parsed) : AgentAction :=
  match p with
  | PThink _ => THINK
  | PToolCall _ _ => TOOL_CALL
  | PAnswer _ _ _ _ => ANSWER
  end.

Section Parser.

(** [json.loads]: [None] is the [JSONDecodeError]. *)
Variable json_loads : string -> option json.

(** [enumerate(lines)] up to the first line starting with [ACTION:]. *)
Fixpoint first_action_line (lines : list string) (i : nat)
  : option (nat * string) :=
  match lines with
  | [] => None
  | l :: ls => if startswith l "ACTION:" then Some (i, l)
               else first_action_line ls (S i)
  end.

(** Lines collected until a line starting with [```] or [ACTION:]. *)
Fixpoint take_until_marker (ls : list string) : list string :=
  match ls with
  | [] => []
  | l :: r => if startswith l "```" || startswith l "ACTION:" then []
              else l :: take_until_marker r
  end.

(** First index [j >= start] whose line starts with [p]. *)
Fixpoint find_prefixed (p : string) (ls : list string) (j : nat)
  : option nat :=
  match ls with
  | [] => None
  | l :: r => if startswith l p then Some j else find_prefixed p r (S j)
  end.

(** The [THINK] branch (lines 243-257). *)
Definition think_content (lines : list string) (i : nat) : option parsed :=
  match find_prefixed "REASONING:" (skipn (S i) lines) (S i) with
  | None => None
  | Some reasoning_start =>
      let reasoning_lines := take_until_marker (skipn (S reasoning_start) lines) in
      Some (PThink (strip (replace "REASONING:" "" (join " " reasoning_lines))))
  end.

(** One [ARGUMENTS:] line at index [j] (lines 267-286), given the current
    value of [arguments]. *)
Definition arguments_at (lines : list string) (j : nat) (line : string)
  (arguments : json) : json :=
  let args_text0 := strip (replace "ARGUMENTS:" "" line) in
  let args_text := fold_left (fun acc l => acc ++ " " ++ l)
                     (take_until_marker (skipn (S j) lines)) args_text0 in
  match json_loads args_text with
  | Some v => v
  | None =>
      match re_search_span "{"%char "}"%char args_text with
      | Some m => match json_loads m with Some v => v | None => JObj [] end
      | None => arguments
      end
  end.

(** The loop [for j in range(i+1, len(lines))] of the [TOOL_CALL] branch,
    threading [(tool_name, arguments)]. *)
Fixpoint tool_call_scan (lines : list string) (rest : list string) (j : nat)
  (tool_name : option string) (arguments : json) : option string * json :=
  match rest with
  | [] => (tool_name, arguments)
  | l :: r =>
      if startswith l "TOOL:" then
        tool_call_scan lines r (S j) (Some (strip (replace "TOOL:" "" l))) arguments
      else if startswith l "ARGUMENTS:" then
        tool_call_scan lines r (S j) tool_name (arguments_at lines j l arguments)
      else tool_call_scan lines r (S j) tool_name arguments
  end.

Definition tool_call_content (lines : list string) (i : nat) : option parsed :=
  let '(tool_name, arguments) :=
    tool_call_scan lines (skipn (S i) lines) (S i) None (JObj []) in
  Some (PToolCall tool_name arguments).

(** [text.split(marker)[1].split("\n")[0].strip()] *)
Definition field_line (marker text : string) : string :=
  strip (nth_str 0 (split nl (nth_str 1 (split marker text)))).

Definition bullet_findings (findings_text : string) : json :=
  JArr (map (fun line => JStr (strip (strip_chars "- " line)))
            (filter (fun line => startswith (strip line) "-")
                    (split nl findings_text))).

(** The [ANSWER] branch (lines 294-349). *)
Definition answer_content (lines : list string) (i : nat) : option parsed :=
  let answer_text := join nl (skipn (S i) lines) in
  let root_cause :=
    if contains "ROOT_CAUSE:" answer_text then field_line "ROOT_CAUSE:" answer_text
    else "" in
  let confidence :=
    if contains "CONFIDENCE:" answer_text then
      match py_int (field_line "CONFIDENCE:" answer_text) with
      | Some z => z
      | None => 50%Z
      end
    else 0%Z in
  let fixes :=
    if contains "SUGGESTED_FIXES:" answer_text then
      let fixes_text0 := nth_str 1 (split "SUGGESTED_FIXES:" answer_text) in
      let fixes_text :=
        if contains "KEY_FINDINGS:" fixes_text0
        then nth_str 0 (split "KEY_FINDINGS:" fixes_text0) else fixes_text0 in
      match re_search_span "["%char "]"%char fixes_text with
      | Some m => match json_loads m with Some v => v | None => JArr [] end
      | None => JArr []
      end
    else JArr [] in
  let findings :=
    if contains "KEY_FINDINGS:" answer_text then
      let findings_text := nth_str 1 (split "KEY_FINDINGS:" answer_text) in
      match re_search_span "["%char "]"%char findings_text with
      | Some m => match json_loads m with
                  | Some v => v
                  | None => bullet_findings findings_text
                  end
      | None => JArr []
      end
    else JArr [] in
  Some (PAnswer root_cause confidence fixes findings).

(** The body of the loop for the first [ACTION:] line. *)
Definition action_content (lines : list string) (i : nat) (line : string)
  : option parsed :=
  let action_type := strip (replace "ACTION:" "" line) in
  if String.eqb action_type "THINK" then think_content lines i
  else if String.eqb action_type "TOOL_CALL" then tool_call_content lines i
  else if String.eqb action_type "ANSWER" then answer_content lines i
  else None.

(** [_parse_llm_response] (lines 231-360).  The local variable [action]
    is initialised to [None] and is not assigned anywhere in the body. *)
Definition _parse_llm_response (response : string) : option parsed :=
  let lines := split nl (strip response) in
  let action : option AgentAction := None in
  let content :=
    match first_action_line lines 0 with
    | None => None
    | Some (i, line) => action_content lines i line
    end in
  match action with
  | None => Some (PThink response)
  | Some _ => content
  end.

End Parser.

(* ================================================================== *)
(** ** A small [json.loads] for concrete runs

    Objects, arrays, strings without escape sequences, integers,
    [true], [false] and [null]; every other text is a decode error. *)

Module JsonLite.

Definition dqc : ascii := ascii_of_nat 34.

Definition is_json_ws (c : ascii) : bool :=
  let n := nat_of_ascii c in
  Nat.eqb n 32 || Nat.eqb n 9 || Nat.eqb n 10 || Nat.eqb n 13.

Fixpoint skip_ws (s : string) : string :=
  match s with
  | String c r => if is_json_ws c then skip_ws r else s
  | EmptyString => s
  end.

(** Body of a string literal after its opening quote. *)
Fixpoint str_body (s : string) : option (string * string) :=
  match s with
  | EmptyString => None
  | String c r =>
      if Ascii.eqb c dqc then Some (EmptyString, r)
      else if Ascii.eqb c "\"%char then None
      else match str_body r with
           | Some (b, rest) => Some (String c b, rest)
           | None => None
           end
  end.

Fixpoint digits (s : string) (acc : Z) (seen : bool) : option (Z * string) :=
  match s with
  | String c r =>
      if is_digit c then digits r (acc * 10 + Z.of_nat (nat_of_ascii c - 48)) true
      else if seen then Some (acc, s) else None
  | EmptyString => if seen then Some (acc, s) else None
  end.

Fixpoint value (fuel : nat) (s : string) : option (json * string) :=
  match fuel with
  | O => None
  | S f =>
      match skip_ws s with
      | EmptyString => None
      | String c r as t =>
          if Ascii.eqb c "{"%char then
            match skip_ws r with
            | String d r' => if Ascii.eqb d "}"%char then Some (JObj [], r')
                             else members f t []
            | EmptyString => None
            end
          else if Ascii.eqb c "["%char then
            match skip_ws r with
            | String d r' => if Ascii.eqb d "]"%char then Some (JArr [], r')
                             else elements f t []
            | EmptyString => None
            end
          else if Ascii.eqb c dqc then
            option_map (fun '(b, rest) => (JStr b, rest)) (str_body r)
          else if Ascii.eqb c "-"%char then
            option_map (fun '(z, rest) => (JInt (- z), rest)) (digits r 0 false)
          else if is_digit c then
            option_map (fun '(z, rest) => (JInt z, rest)) (digits t 0 false)
          else if String.prefix "true" t then
            Some (JBool true, substring 4 (String.length t) t)
          else if String.prefix "false" t then
            Some (JBool false, substring 5 (String.length t) t)
          else if String.prefix "null" t then
            Some (JNull, substring 4 (String.length t) t)
          else None
      end
  end
(** [s] starts with [{] or [,] followed by a member. *)
with members (fuel : nat) (s : string) (acc : list (string * json))
  : option (json * string) :=
  match fuel with
  | O => None
  | S f =>
      match s with
      | String _ r =>
          match skip_ws r with
          | String q r1 =>
              if Ascii.eqb q dqc then
                match str_body r1 with
                | Some (k, r2) =>
                    match skip_ws r2 with
                    | String col r3 =>
                        if Ascii.eqb col ":"%char then
                          match value f r3 with
                          | Some (v, r4) =>
                              match skip_ws r4 with
                              | String e r5 as t =>
                                  if Ascii.eqb e "}"%char
                                  then Some (JObj (acc ++ [(k, v)]), r5)
                                  else if Ascii.eqb e ","%char
                                  then members f t (acc ++ [(k, v)])
                                  else None
                              | EmptyString => None
                              end
                          | None => None
                          end
                        else None
                    | EmptyString => None
                    end
                | None => None
                end
              else None
          | EmptyString => None
          end
      | EmptyString => None
      end
  end
(** [s] starts with [[] or [,] followed by an element. *)
with elements (fuel : nat) (s : string) (acc : list json)
  : option (json * string) :=
  match fuel with
  | O => None
  | S f =>
      match s with
      | String _ r =>
          match value f r with
          | Some (v, r4) =>
              match skip_ws r4 with
              | String e r5 as t =>
                  if Ascii.eqb e "]"%char then Some (JArr (acc ++ [v]), r5)
                  else if Ascii.eqb e ","%char then elements f t (acc ++ [v])
                  else None
              | EmptyString => None
              end
          | None => None
          end
      | EmptyString => None
      end
  end.

Definition json_loads (s : string) : option json :=
  match value (2 * String.length s + 2) s with
  | Some (v, rest) =>
      match skip_ws rest with EmptyString => Some v | _ => None end
  | None => None
  end.


(** CPython's [json.loads] also raises exceptions that are not a
    [JSONDecodeError]: its C scanner calls [Py_EnterRecursiveCall] each
    time it enters an object or an array, and raises [RecursionError]
    when the interpreter's recursion budget is used up.  [room] is the
    number of nested containers that budget leaves when [json.loads] is
    called; [depth] counts the containers open around [s].  Apart from
    that check the scanner reads what [value] reads. *)
Definition recursion_error (what : string) : string :=
  "maximum recursion depth exceeded while decoding a JSON " ++ what
  ++ " from a unicode string".

Fixpoint value_d (room depth fuel : nat) (s : string)
  : string + option (json * string) :=
  match fuel with
  | O => inr None
  | S f =>
      match skip_ws s with
      | EmptyString => inr None
      | String c r as t =>
          if Ascii.eqb c "{"%char then
            if Nat.leb room depth then inl (recursion_error "object") else
            match skip_ws r with
            | String d r' => if Ascii.eqb d "}"%char then inr (Some (JObj [], r'))
                             else members_d room (S depth) f t []
            | EmptyString => inr None
            end
          else if Ascii.eqb c "["%char then
            if Nat.leb room depth then inl (recursion_error "array") else
            match skip_ws r with
            | String d r' => if Ascii.eqb d "]"%char then inr (Some (JArr [], r'))
                             else elements_d room (S depth) f t []
            | EmptyString => inr None
            end
          (* strings, numbers and literals: the scalar cases of [value],
             which use no fuel *)
          else inr (value 1 t)
      end
  end
with members_d (room depth fuel : nat) (s : string) (acc : list (string * json))
  : string + option (json * string) :=
  match fuel with
  | O => inr None
  | S f =>
      match s with
      | String _ r =>
          match skip_ws r with
          | String q r1 =>
              if Ascii.eqb q dqc then
                match str_body r1 with
                | Some (k, r2) =>
                    match skip_ws r2 with
                    | String col r3 =>
                        if Ascii.eqb col ":"%char then
                          match value_d room depth f r3 with
                          | inl e => inl e
                          | inr (Some (v, r4)) =>
                              match skip_ws r4 with
                              | String e r5 as t =>
                                  if Ascii.eqb e "}"%char
                                  then inr (Some (JObj (acc ++ [(k, v)]), r5))
                                  else if Ascii.eqb e ","%char
                                  then members_d room depth f t (acc ++ [(k, v)])
                                  else inr None
                              | EmptyString => inr None
                              end
                          | inr None => inr None
                          end
                        else inr None
                    | EmptyString => inr None
                    end
                | None => inr None
                end
              else inr None
          | EmptyString => inr None
          end
      | EmptyString => inr None
      end
  end
with elements_d (room depth fuel : nat) (s : string) (acc : list json)
  : string + option (json * string) :=
  match fuel with
  | O => inr None
  | S f =>
      match s with
      | String _ r =>
          match value_d room depth f r with
          | inl e => inl e
          | inr (Some (v, r4)) =>
              match skip_ws r4 with
              | String e r5 as t =>
                  if Ascii.eqb e "]"%char then inr (Some (JArr (acc ++ [v]), r5))
                  else if Ascii.eqb e ","%char then elements_d room depth f t (acc ++ [v])
                  else inr None
              | EmptyString => inr None
              end
          | inr None => inr None
          end
      | EmptyString => inr None
      end
  end.

(** [json.loads] with its exceptions: [inl e] an exception that is not a
    [JSONDecodeError], [inr None] a [JSONDecodeError], [inr (Some v)] the
    decoded value. *)
Definition py_json_loads (room : nat) (s : string) : string + option json :=
  match value_d room 0 (2 * String.length s + 2) s with
  | inl e => inl e
  | inr (Some (v, rest)) =>
      inr (match skip_ws rest with EmptyString => Some v | _ => None end)
  | inr None => inr None
  end.

End JsonLite.

(* ================================================================== *)
(** ** [_parse_llm_response] with the exceptions of [json.loads]

    [_parse_llm_response] above takes a [json.loads] whose only failure
    is the [JSONDecodeError].  Here [json.loads] may also raise another
    exception; the [TOOL_CALL] branch catches only [JSONDecodeError]
    around its first [json.loads] (line 278), the other calls are under a
    bare [except:]. *)

Section ParserExc.

Variable json_loads_py : string -> string + option json.

(** [json.loads(t)] under a bare [except:]: every failure is caught. *)
Definition loads_or_none (t : string) : option json :=
  match json_loads_py t with inr (Some v) => Some v | _ => None end.

(** One [ARGUMENTS:] line (lines 267-286): an exception of the first
    [json.loads] that is not a [JSONDecodeError] propagates. *)
Definition arguments_at_exc (lines : list string) (j : nat) (line : string)
  (arguments : json) : string + json :=
  let args_text0 := strip (replace "ARGUMENTS:" "" line) in
  let args_text := fold_left (fun acc l => acc ++ " " ++ l)
                     (take_until_marker (skipn (S j) lines)) args_text0 in
  match json_loads_py args_text with
  | inl e => inl e
  | inr _ => inr (arguments_at loads_or_none lines j line arguments)
  end.

Fixpoint tool_call_scan_exc (lines : list string) (rest : list string) (j : nat)
  (tool_name : option string) (arguments : json) : string + (option string * json) :=
  match rest with
  | [] => inr (tool_name, arguments)
  | l :: r =>
      if startswith l "TOOL:" then
        tool_call_scan_exc lines r (S j) (Some (strip (replace "TOOL:" "" l))) arguments
      else if startswith l "ARGUMENTS:" then
        match arguments_at_exc lines j l arguments with
        | inl e => inl e
        | inr arguments' => tool_call_scan_exc lines r (S j) tool_name arguments'
        end
      else tool_call_scan_exc lines r (S j) tool_name arguments
  end.

Definition tool_call_content_exc (lines : list string) (i : nat)
  : string + option parsed :=
  match tool_call_scan_exc lines (skipn (S i) lines) (S i) None (JObj []) with
  | inl e => inl e
  | inr (tool_name, arguments) => inr (Some (PToolCall tool_name arguments))
  end.

Definition action_content_exc (lines : list string) (i : nat) (line : string)
  : string + option parsed :=
  let action_type := strip (replace "ACTION:" "" line) in
  if String.eqb action_type "THINK" then inr (think_content lines i)
  else if String.eqb action_type "TOOL_CALL" then tool_call_content_exc lines i
  else if String.eqb action_type "ANSWER" then inr (answer_content loads_or_none lines i)
  else inr None.

(** [_parse_llm_response] (lines 231-360) with the exceptions of its body. *)
Definition _parse_llm_response_exc (response : string) : string + option parsed :=
  let lines := split nl (strip response) in
  let action : option AgentAction := None in
  match match first_action_line lines 0 with
        | None => inr None
        | Some (i, line) => action_content_exc lines i line
        end with
  | inl e => inl e
  | inr content =>
      match action with
      | None => inr (Some (PThink response))
      | Some _ => inr content
      end
  end.

End ParserExc.

(** [n] opening brackets, and a [TOOL_CALL] reply whose [ARGUMENTS:]
    text is these brackets. *)
Fixpoint brackets (n : nat) : string :=
  match n with
  | O => EmptyString
  | S k => String "["%char (brackets k)
  end.

Definition deep_arguments_reply (n : nat) : string :=
  join nl ["ACTION: TOOL_CALL"; "TOOL: get_stacktrace"; "ARGUMENTS: " ++ brackets n].

(* ================================================================== *)
(** ** Messages, events and the agent's state *)

(** [SystemMessage], [HumanMessage] and the model's [AIMessage]. *)
Inductive message : Type :=
| SystemMessage (content : string)
| HumanMessage (content : string)
| AIMessage (content : string).

(** An entry of the [observations] list. *)
Inductive observation : Type :=
| OThought (content : string)
| OToolResult (tool : string) (result : json).

(** The [final_answer] dict returned by [investigate]. *)
Record investigation_result : Type := mkResult {
  root_cause : string;
  confidence : Q;
  suggested_fixes : json;
  key_findings : json;
  iterations : nat;
  observations : list observation
}.

(** What the stream callback receives: a ["step"] update built by
    [_emit_step] (its [timestamp] is left out) or the ["complete"] event. *)
Inductive event : Type :=
| EvStep (step_type : string) (data : json)
| EvComplete (issue_id error_message : string)
             (final_answer : investigation_result) (status : string).

(** The stream callback: [None] when it returns normally, [Some m] when
    it raises an exception with message [m]. *)
Definition callback := event -> option string.

(** The configuration of an [AutonomousMCPAgent] object. *)
Record agent : Type := mkAgent {
  stream_callback : option callback;
  max_iterations : nat
}.

(** The mutable part of the agent ([self.conversation_history]) together
    with a log of every call to an external party: the model, the tool
    capabilities and the stream callback. *)
Record st : Type := mkSt {
  conversation_history : list message;
  llm_calls : list (list message);
  tool_calls : list (string * list (string * json));
  events : list event
}.

Definition set_history (h : list message) (s : st) : st :=
  mkSt h (llm_calls s) (tool_calls s) (events s).
Definition log_llm (m : list message) (s : st) : st :=
  mkSt (conversation_history s) (llm_calls s ++ [m]) (tool_calls s) (events s).
Definition log_tool (c : string * list (string * json)) (s : st) : st :=
  mkSt (conversation_history s) (llm_calls s) (tool_calls s ++ [c]) (events s).
Definition log_event (e : event) (s : st) : st :=
  mkSt (conversation_history s) (llm_calls s) (tool_calls s) (events s ++ [e]).

(** A Python computation: it returns a value or raises, and in both cases
    the state changes made before it stopped are kept. *)
Inductive res (A : Type) : Type :=
| Ok (a : A)
| Raise (msg : string).
Arguments Ok {A} a.
Arguments Raise {A} msg.

Definition M (A : Type) : Type := st -> res A * st.

Definition ret {A} (a : A) : M A := fun s => (Ok a, s).

Definition bind {A B} (c : M A) (k : A -> M B) : M B :=
  fun s => match c s with
           | (Ok a, s') => k a s'
           | (Raise m, s') => (Raise m, s')
           end.

Definition raise {A} (m : string) : M A := fun s => (Raise m, s).

(** [try: c except Exception as e: h(str(e))] *)
Definition try_except {A} (c : M A) (h : string -> M A) : M A :=
  fun s => match c s with
           | (Ok a, s') => (Ok a, s')
           | (Raise m, s') => h m s'
           end.

Definition modify (f : st -> st) : M unit := fun s => (Ok tt, f s).

Notation "x <- c1 ;; c2" := (bind c1 (fun x => c2))
  (at level 61, c1 at next level, right associativity).
Notation "' p <- c1 ;; c2" := (bind c1 (fun x => match x with p => c2 end))
  (at level 61, p pattern, c1 at next level, right associativity).
Notation "c1 ;; c2" := (bind c1 (fun _ => c2)) (at level 61, right associativity).

(** [self.conversation_history.append(m)] *)
Definition append_history (m : message) : M unit :=
  modify (fun s => set_history (conversation_history s ++ [m]) s).

(** [await self.stream_callback(ev)] *)
Definition call_callback (cb : callback) (ev : event) : M unit :=
  fun s => (match cb ev with None => Ok tt | Some m => Raise m end,
            log_event ev s).

(** [_emit_step] (lines 55-65). *)
Definition _emit_step (self : agent) (step_type : string) (content : json)
  : M unit :=
  match stream_callback self with
  | Some cb => call_callback cb (EvStep step_type content)
  | None => ret tt
  end.

(* ================================================================== *)
(** ** Prompts *)

Module Prompts.

(** The dict [tools] of [_load_tool_descriptions]: name, description,
    the [repr] of its [parameters] dict, and what it returns. *)
Definition tools : list (string * string * string * string) := [
  ("get_sentry_issue_details",
   "Fetch detailed information about a Sentry issue including metadata, stats, and tags",
   "{'issue_id': 'string - The Sentry issue ID'}",
   "Issue details with title, count, user count, status, etc.");
  ("get_stacktrace",
   "Get the stack trace for the most recent event of a Sentry issue",
   "{'issue_id': 'string - The Sentry issue ID'}",
   "Stack trace with exception type, message, and frames");
  ("search_knowledge_base",
   "Search for similar past incidents in the knowledge base using semantic similarity",
   "{'error_message': 'string - Error message to search for', 'limit': 'int (optional, default=3) - Max results'}",
   "List of similar incidents with their fixes and similarity scores");
  ("analyze_error_frequency",
   "Analyze error frequency patterns and trends over time",
   "{'issue_id': 'string - The Sentry issue ID'}",
   "Frequency analysis with trend (increasing/decreasing/stable) and occurrence counts");
  ("get_user_impact",
   "Get user impact metrics - how many users are affected",
   "{'issue_id': 'string - The Sentry issue ID'}",
   "Number of affected users and impact level")].

(** The string returned by [_load_tool_descriptions] (lines 119-127);
    its assignment to [self.tool_descriptions] is not read by the loop. *)
Definition _load_tool_descriptions : string :=
  fold_left (fun tool_str '(name, description, parameters, returns) =>
               tool_str ++ "Tool: " ++ name ++ nl
                 ++ "  Description: " ++ description ++ nl
                 ++ "  Parameters: " ++ parameters ++ nl
                 ++ "  Returns: " ++ returns ++ nl ++ nl)
            tools ("Available MCP Tools:" ++ nl ++ nl).

(** [_create_react_prompt] (lines 177-229). *)
Definition _create_react_prompt (task tools_info : string) : string :=
  "You are an expert Site Reliability Engineer investigating a production incident.
You must use a ReAct (Reasoning + Acting) approach to solve the problem.

Your task: " ++ task ++ "

" ++ tools_info ++ dequote "

IMPORTANT INSTRUCTIONS:
1. You work in steps. Each response must be ONE of these actions:
   - THINK: Reason about what you know and what you need to find out
   - TOOL_CALL: Call a specific tool to get information
   - ANSWER: Provide the final answer when you have enough information

2. Format your responses EXACTLY like this:

For thinking:
```
ACTION: THINK
REASONING: [Your reasoning about the current situation and what to do next]
```

For tool calls:
```
ACTION: TOOL_CALL
TOOL: [exact tool name]
ARGUMENTS: {^parameter^: ^value^}
```

For final answer:
```
ACTION: ANSWER
ROOT_CAUSE: [Brief description of root cause]
CONFIDENCE: [0-100 score]
SUGGESTED_FIXES: [
  {
    ^title^: ^Fix title^,
    ^steps^: [^Step 1^, ^Step 2^],
    ^confidence^: 90,
    ^time_estimate^: ^30 minutes^,
    ^risk^: ^low^
  }
]
KEY_FINDINGS: [List of important discoveries]
```

3. Start by thinking about what information you need
4. Call tools to gather that information
5. Continue until you can provide a comprehensive answer
6. Be efficient - don't call tools unnecessarily

Begin your investigation.".

(** The [task] f-string of [investigate] (lines 389-398). *)
Definition task (issue_id error_message : string) : string :=
  "Investigate Sentry issue " ++ issue_id ++ " with error: " ++ dq
  ++ error_message ++ dq ++ "

You need to:
1. Understand what the error is about
2. Analyze its patterns and impact
3. Search for similar past incidents
4. Determine the root cause
5. Suggest concrete fixes

Use the available tools to gather information, then provide a comprehensive analysis.".

(** The [planning_prompt] of [plan_investigation] (lines 538-551). *)
Definition planning_prompt (issue_id error_message : string) : string :=
  "Given this error: " ++ dq ++ error_message ++ dq ++ " (Issue ID: "
  ++ issue_id ++ ")

And these available tools:
" ++ _load_tool_descriptions ++ "

Create a step-by-step investigation plan. List the tools you'll likely need and in what order.
Be strategic and efficient.

Format:
1. [Tool name] - [Why you need it]
2. [Tool name] - [Why you need it]
...

Provide only the plan, nothing else.".

Definition max_iterations_nudge : string :=
  "You've reached the maximum number of iterations. Please provide your final answer now.".

End Prompts.

(* ================================================================== *)
(** ** The agent *)

Section Agent.

(** [json.loads], [json.dumps(_, indent=2, default=str)] and [str]. *)
Variable json_loads : string -> option json.
Variable json_dumps : json -> string.
Variable py_str : json -> string.

(** The model: the content of the reply to a list of messages. *)
Variable llm : list message -> string.

(** The tool capabilities of [tools/tools.py] called with keyword
    arguments: [inr r] is a returned result, [inl m] an exception whose
    [str] is [m]. *)
Variable tool_impl : string -> list (string * json) -> string + json.

(** [await self.llm.ainvoke(messages)] *)
Definition ainvoke (messages : list message) : M string :=
  fun s => (Ok (llm messages), log_llm messages s).

(** The keys of [tool_map] (lines 145-151). *)
Definition tool_map_keys : list string :=
  ["get_sentry_issue_details"; "get_stacktrace"; "search_knowledge_base";
   "analyze_error_frequency"; "get_user_impact"].

Definition in_tool_map (tool_name : string) : bool :=
  existsb (String.eqb tool_name) tool_map_keys.

Definition py_type_name (v : json) : string :=
  match v with
  | JNull => "NoneType" | JBool _ => "bool" | JInt _ => "int"
  | JStr _ => "str" | JArr _ => "list" | JObj _ => "dict"
  end.

(** [await tool_map[tool_name]( **arguments)]: a non-mapping [arguments]
    raises a [TypeError] before the tool is entered. *)
Definition call_tool (tool_name : string) (arguments : json) : M json :=
  match arguments with
  | JObj kv =>
      fun s => (match tool_impl tool_name kv with
                | inr r => Ok r
                | inl m => Raise m
                end, log_tool (tool_name, kv) s)
  | v => raise (tool_name ++ "() argument after ** must be a mapping, not "
                ++ py_type_name v)
  end.

(** [str(result)[:200] + "..." if len(str(result)) > 200 else str(result)] *)
Definition result_preview (result : json) : string :=
  let r := py_str result in
  if Nat.ltb 200 (String.length r) then substring 0 200 r ++ "..." else r.

(** [_execute_tool] (lines 129-175). *)
Definition _execute_tool (self : agent) (tool_name : string) (arguments : json)
  : M json :=
  _emit_step self "tool_execution"
    (JObj [("tool", JStr tool_name); ("arguments", arguments)]) ;;
  if negb (in_tool_map tool_name) then
    ret (JObj [("error", JStr ("Unknown tool: " ++ tool_name))])
  else
    try_except
      (result <- call_tool tool_name arguments ;;
       _emit_step self "tool_result"
         (JObj [("tool", JStr tool_name); ("success", JBool true);
                ("result_preview", JStr (result_preview result))]) ;;
       ret result)
      (fun e =>
         let error_result := JObj [("error", JStr e)] in
         _emit_step self "tool_result"
           (JObj [("tool", JStr tool_name); ("success", JBool false);
                  ("error", JStr e)]) ;;
         ret error_result).

(** The content of the [OBSERVATION] message for a tool result. *)
Definition observation_text (tool_name : string) (result : json) : string :=
  "Tool '" ++ tool_name ++ "' returned: " ++ json_dumps result.

(** The parsed dict as sent with the [final_answer] step (the enum member
    [AgentAction.ANSWER] is shown by its value). *)
Definition parsed_json (p : parsed) : json :=
  match p with
  | PThink r => JObj [("action", JStr "think"); ("reasoning", JStr r)]
  | PToolCall t a =>
      JObj [("action", JStr "tool_call");
            ("tool", match t with Some n => JStr n | None => JNull end);
            ("arguments", a)]
  | PAnswer rc c f k =>
      JObj [("action", JStr "answer"); ("root_cause", JStr rc);
            ("confidence", JInt c); ("suggested_fixes", f); ("key_findings", k)]
  end.

(** How one loop iteration ends: the loop goes on with the updated
    [observations], or [final_answer] is set and the loop breaks. *)
Inductive step_outcome : Type :=
| Continue (observations : list observation)
| Break (final_answer : investigation_result).

(** The [if]/[elif] chain on [parsed["action"]] (lines 429-484). *)
Definition handle_parsed (self : agent) (iteration : nat)
  (observations : list observation) (p : parsed) : M step_outcome :=
  match p with
  | PThink reasoning =>
      _emit_step self "thinking"
        (JObj [("iteration", JInt (Z.of_nat iteration));
               ("reasoning", JStr reasoning)]) ;;
      ret (Continue (observations ++ [OThought reasoning]))
  | PToolCall tool_name arguments =>
      _emit_step self "tool_call"
        (JObj [("iteration", JInt (Z.of_nat iteration));
               ("tool", match tool_name with Some n => JStr n | None => JNull end);
               ("arguments", arguments)]) ;;
      match tool_name with
      | Some n =>
          if negb (String.eqb n "") then
            result <- _execute_tool self n arguments ;;
            append_history (HumanMessage ("OBSERVATION: " ++ observation_text n result)) ;;
            ret (Continue (observations ++ [OToolResult n result]))
          else
            append_history
              (HumanMessage "OBSERVATION: Tool call failed - no tool name provided") ;;
            ret (Continue observations)
      | None =>
          append_history
            (HumanMessage "OBSERVATION: Tool call failed - no tool name provided") ;;
          ret (Continue observations)
      end
  | PAnswer rc conf fixes findings =>
      _emit_step self "final_answer" (parsed_json p) ;;
      ret (Break (mkResult rc (Qmake conf 100) fixes findings iteration observations))
  end.

Definition get_history : M (list message) :=
  fun s => (Ok (conversation_history s), s).

(** The [while iteration < self.max_iterations] loop (lines 414-490);
    [fuel] is [self.max_iterations - iteration].  It returns the final
    [iteration], [observations] and [final_answer]. *)
Fixpoint react_loop (self : agent) (fuel iteration : nat)
  (observations : list observation)
  : M (nat * list observation * option investigation_result) :=
  match fuel with
  | O => ret (iteration, observations, None)
  | S f =>
      let iteration := S iteration in
      _emit_step self "iteration"
        (JObj [("number", JInt (Z.of_nat iteration));
               ("max", JInt (Z.of_nat (max_iterations self)))]) ;;
      history <- get_history ;;
      response <- ainvoke history ;;
      append_history (AIMessage response) ;;
      match _parse_llm_response json_loads response with
      | None => raise "KeyError: 'action'"
      | Some p =>
          outcome <- handle_parsed self iteration observations p ;;
          match outcome with
          | Break r => ret (iteration, observations, Some r)
          | Continue observations' =>
              (if Nat.leb (max_iterations self - 1) iteration
               then append_history (HumanMessage Prompts.max_iterations_nudge)
               else ret tt) ;;
              react_loop self f iteration observations'
          end
      end
  end.

(** The [final_answer] built when no answer was given (lines 493-501). *)
Definition exhausted_result (iteration : nat) (observations : list observation)
  : investigation_result :=
  mkResult "Investigation incomplete - maximum iterations reached" (3 # 10)
    (JArr []) (JArr [JStr "Investigation did not complete within iteration limit"])
    iteration observations.

Definition initial_history (issue_id error_message : string) : list message :=
  [SystemMessage (Prompts._create_react_prompt (Prompts.task issue_id error_message)
                    Prompts._load_tool_descriptions);
   HumanMessage ("Begin investigating issue " ++ issue_id ++ ": " ++ error_message)].

(** [investigate] (lines 362-515). *)
Definition investigate (self : agent) (issue_id error_message : string)
  : M investigation_result :=
  _emit_step self "start"
    (JObj [("issue_id", JStr issue_id); ("error_message", JStr error_message);
           ("mode", JStr "autonomous")]) ;;
  modify (set_history (initial_history issue_id error_message)) ;;
  '(iteration, observations, final) <- react_loop self (max_iterations self) 0 [] ;;
  let final_answer := match final with
                      | Some r => r
                      | None => exhausted_result iteration observations
                      end in
  match stream_callback self with
  | Some cb => call_callback cb (EvComplete issue_id error_message final_answer "success")
  | None => ret tt
  end ;;
  ret final_answer.

(** The plan parsing of [plan_investigation] (lines 559-569). *)
Definition plan_step (line : string) : list string :=
  let first_is_digit := match line with
                        | String c _ => is_digit c
                        | EmptyString => false
                        end in
  if negb (String.eqb (strip line) "") && first_is_digit then
    let tool_part := strip (nth_str 0 (split "-" line)) in
    [if contains "." tool_part then strip (nth_str 1 (split "." tool_part))
     else tool_part]
  else [].

Definition parse_plan (content : string) : list string :=
  flat_map plan_step (split nl (strip content)).

(** [plan_investigation] (lines 531-576). *)
Definition plan_investigation (self : agent) (issue_id error_message : string)
  : M (list string) :=
  response <- ainvoke
    [SystemMessage "You are an expert debugger. Create an investigation plan.";
     HumanMessage (Prompts.planning_prompt issue_id error_message)] ;;
  let plan := parse_plan response in
  _emit_step self "investigation_plan"
    (JObj [("plan", JArr (map JStr plan)); ("raw_plan", JStr response)]) ;;
  ret plan.

End Agent.

(** [list.insert(i, x)]: past the end it appends. *)
Definition py_insert {A} (i : nat) (x : A) (l : list A) : list A :=
  firstn i l ++ x :: skipn i l.

(** [f"{plan}"] for a list of strings. *)
Definition py_list_repr (xs : list string) : string :=
  "[" ++ join ", " (map (fun x => "'" ++ x ++ "'") xs) ++ "]".

Definition plan_message (plan : list string) : message :=
  SystemMessage ("Investigation plan: " ++ py_list_repr plan
                 ++ ". Follow this plan but adapt as needed based on findings.").

(** [investigate_with_planning] (lines 578-591). *)
Definition investigate_with_planning json_loads json_dumps py_str llm tool_impl
  (self : agent) (issue_id error_message : string) : M investigation_result :=
  plan <- plan_investigation llm self issue_id error_message ;;
  modify (fun s => set_history (py_insert 1 (plan_message plan)
                                  (conversation_history s)) s) ;;
  investigate json_loads json_dumps py_str llm tool_impl self issue_id error_message.

(* ================================================================== *)
(** ** The tools of [backend/tools/tools.py]

    Each tool awaits the Sentry client and builds a dict from the JSON
    it returns; every exception raised in its body is caught and turned
    into an error dict.  Python exceptions are [inl (str e)]. *)

Module Tools.

Notation "'let?' x ':=' c 'in' k" :=
  (match c with inl e => inl e | inr x => k end)
  (at level 200, x name, c at level 100, k at level 200).

(** [d[k]] on a dict decoded from JSON: a repeated key keeps its last
    value, as in the dict built by [json.loads]. *)
Definition dict_lookup (k : string) (kv : list (string * json)) : option json :=
  match find (fun p => String.eqb (fst p) k) (rev kv) with
  | Some (_, v) => Some v
  | None => None
  end.

(** [v.get(k, default)] *)
Definition py_get (v : json) (k : string) (default : json) : string + json :=
  match v with
  | JObj kv => inr (match dict_lookup k kv with Some x => x | None => default end)
  | _ => inl ("'" ++ py_type_name v ++ "' object has no attribute 'get'")
  end.

(** [v[k]] for a string key [k] (the [KeyError] is shown as [repr(k)]). *)
Definition py_getitem_str (v : json) (k : string) : string + json :=
  match v with
  | JObj kv => match dict_lookup k kv with
               | Some x => inr x
               | None => inl ("'" ++ k ++ "'")
               end
  | JArr _ => inl "list indices must be integers or slices, not str"
  | JStr _ => inl "string indices must be integers, not 'str'"
  | _ => inl ("'" ++ py_type_name v ++ "' object is not subscriptable")
  end.

(** [v[0]] *)
Definition py_index0 (v : json) : string + json :=
  match v with
  | JArr (x :: _) => inr x
  | JArr [] => inl "list index out of range"
  | JStr (String c _) => inr (JStr (String c EmptyString))
  | JStr EmptyString => inl "string index out of range"
  | JObj _ => inl "0"
  | _ => inl ("'" ++ py_type_name v ++ "' object is not subscriptable")
  end.

(** The items of [for x in v]: a list yields its items, a dict its keys
    and a string its characters. *)
Definition py_iter (v : json) : string + list json :=
  match v with
  | JArr l => inr l
  | JObj kv => inr (map (fun p => JStr (fst p)) kv)
  | JStr s => inr (map (fun c => JStr (String c EmptyString)) (list_ascii_of_string s))
  | _ => inl ("'" ++ py_type_name v ++ "' object is not iterable")
  end.

(** [len(v)] *)
Definition py_len (v : json) : string + nat :=
  match v with
  | JArr l => inr (length l)
  | JObj kv => inr (length kv)
  | JStr s => inr (String.length s)
  | _ => inl ("object of type '" ++ py_type_name v ++ "' has no len()")
  end.

(** [bool(v)] *)
Definition truthy (v : json) : bool :=
  match v with
  | JNull => false
  | JBool b => b
  | JInt z => negb (Z.eqb z 0)
  | JStr s => negb (String.eqb s "")
  | JArr l => negb (Nat.eqb (length l) 0)
  | JObj kv => negb (Nat.eqb (length kv) 0)
  end.

(** [v == "s"] *)
Definition json_is_str (s : string) (v : json) : bool :=
  match v with JStr t => String.eqb t s | _ => false end.

(** The value of an [int] ([bool] is a subclass of [int]). *)
Definition as_int (v : json) : option Z :=
  match v with
  | JInt z => Some z
  | JBool b => Some (if b then 1 else 0)%Z
  | _ => None
  end.

(** [v > n] for an [int] [n] *)
Definition py_gt_int (v : json) (n : Z) : string + bool :=
  match as_int v with
  | Some z => inr (Z.ltb n z)
  | None => inl ("'>' not supported between instances of '" ++ py_type_name v
                 ++ "' and 'int'")
  end.

(** [int(v)]; the [repr] in the message is that of a string without
    quotes or backslashes. *)
Definition py_int_of (v : json) : string + Z :=
  match v with
  | JInt z => inr z
  | JBool b => inr (if b then 1 else 0)%Z
  | JStr s => match py_int (strip s) with
              | Some z => inr z
              | None => inl ("invalid literal for int() with base 10: '" ++ s ++ "'")
              end
  | _ => inl ("int() argument must be a string, a bytes-like object or a real number, not '"
              ++ py_type_name v ++ "'")
  end.

(** [sum(xs)], started at [0]. *)
Fixpoint py_sum (xs : list json) (acc : Z) : string + Z :=
  match xs with
  | [] => inr acc
  | x :: r =>
      match as_int x with
      | Some z => py_sum r (acc + z)%Z
      | None => inl ("unsupported operand type(s) for +: 'int' and '"
                     ++ py_type_name x ++ "'")
      end
  end.

(** [_, count = v] *)
Definition unpack2 (v : json) : string + (json * json) :=
  match py_iter v with
  | inl _ => inl ("cannot unpack non-iterable " ++ py_type_name v ++ " object")
  | inr [a; b] => inr (a, b)
  | inr [] => inl "not enough values to unpack (expected 2, got 0)"
  | inr [_] => inl "not enough values to unpack (expected 2, got 1)"
  | inr _ => inl "too many values to unpack (expected 2)"
  end.

(** [[count for _, count in xs]] *)
Fixpoint second_items (xs : list json) : string + list json :=
  match xs with
  | [] => inr []
  | x :: r =>
      let? p := unpack2 x in
      let? t := second_items r in
      inr (snd p :: t)
  end.

(** [(v[:len(v) // 2], v[len(v) // 2:])] as the items iterated over
    (slicing a dict raises, as in CPython 3.11). *)
Definition py_halves (v : json) : string + (list json * list json) :=
  let? n := py_len v in
  match v with
  | JObj _ => inl "unhashable type: 'slice'"
  | _ =>
      let? l := py_iter v in
      inr (firstn (Nat.div n 2) l, skipn (Nat.div n 2) l)
  end.

(** [k in v] for a string [k] *)
Definition py_in (k : string) (v : json) : string + bool :=
  match v with
  | JObj kv => inr (match dict_lookup k kv with Some _ => true | None => false end)
  | JArr l => inr (existsb (json_is_str k) l)
  | JStr s => inr (contains k s)
  | _ => inl ("argument of type '" ++ py_type_name v ++ "' is not iterable")
  end.

(** [x / y] on [int]s rounds the exact quotient to the nearest float
    (ties to even) and raises [OverflowError] when that is past the largest
    float [2^1024 - 2^971], that is when [|x / y| >= 2^1024 - 2^970]. *)
Definition float_overflow_bound : Z := (2 ^ 1024 - 2 ^ 970)%Z.

Definition truediv_overflows (x y : Z) : bool :=
  Z.leb (float_overflow_bound * Z.abs y) (Z.abs x).

Definition overflow_message : string := "integer division result too large for a float".

(** [sum(xs) / len(xs) if xs else 0]; the quotient, when it does not
    overflow, and the float comparisons below are taken exactly, over [Q]. *)
Definition py_avg (xs : list json) : string + Q :=
  match xs with
  | [] => inr 0%Q
  | _ => let? s := py_sum xs 0 in
         if truediv_overflows s (Z.of_nat (length xs)) then inl overflow_message
         else inr (Qmake s (Pos.of_nat (length xs)))
  end.

(** The [if]/[elif] on the two averages (lines 167-172). *)
Definition trend_of (first_avg second_avg : Q) : string :=
  if negb (Qle_bool second_avg (first_avg * (3 # 2))) then "increasing"
  else if negb (Qle_bool (first_avg * (1 # 2)) second_avg) then "decreasing"
  else "stable".

(** A value of the returned dicts: a JSON value, or the float
    [round(x / y, ndigits)] kept as the operands it is computed from. *)
Inductive pyval : Type :=
| PJson (j : json)
| PRoundDiv (x y : Z) (ndigits : nat).

(** [x / y] for [int] operands *)
Definition py_truediv (a b : json) : string + (Z * Z) :=
  match as_int a, as_int b with
  | Some x, Some y =>
      if Z.eqb y 0 then inl "division by zero"
      else if truediv_overflows x y then inl overflow_message
      else inr (x, y)
  | _, _ => inl ("unsupported operand type(s) for /: '" ++ py_type_name a
                 ++ "' and '" ++ py_type_name b ++ "'")
  end.

(** [d.get(k, default)] on a dict *)
Definition dict_get_or (kv : list (string * json)) (k : string) (default : json) : json :=
  match dict_lookup k kv with Some x => x | None => default end.

(** A key of a returned dict. *)
Definition result_field (d : json) (k : string) : option json :=
  match d with JObj kv => dict_lookup k kv | _ => None end.

Definition pv_field (k : string) (d : list (string * pyval)) : option pyval :=
  match find (fun p => String.eqb (fst p) k) d with
  | Some (_, v) => Some v
  | None => None
  end.

(** The order of the labels. *)
Definition frequency_rank (f : string) : nat :=
  if String.eqb f "high" then 2 else if String.eqb f "medium" then 1 else 0.

Definition impact_rank (l : string) : nat :=
  if String.eqb l "critical" then 3 else if String.eqb l "high" then 2
  else if String.eqb l "medium" then 1 else 0.

(** An entry that the loop of [get_stacktrace] passes over: a dict whose
    [type] is not ["exception"], or whose [data] is a dict with no
    [values]. *)
Definition skipped_entry (x : json) : Prop :=
  exists kv, x = JObj kv /\
    (json_is_str "exception" (dict_get_or kv "type" JNull) = false
     \/ exists dk, dict_get_or kv "data" (JObj []) = JObj dk
                  /\ truthy (dict_get_or dk "values" (JArr [])) = false).

Section ToolBodies.

(** [sentry_client.get_issue_details(issue_id)] and
    [sentry_client.get_issue_events(issue_id, limit)]: the decoded JSON
    body, or the exception raised ([httpx] errors, [raise_for_status]). *)
Variable get_issue_details : string -> string + json.
Variable get_issue_events : string -> nat -> string + json.

(** [[tag["key"] for tag in tags]] *)
Fixpoint tag_keys (tags : list json) : string + list json :=
  match tags with
  | [] => inr []
  | tag :: r =>
      let? k := py_getitem_str tag "key" in
      let? ks := tag_keys r in
      inr (k :: ks)
  end.

(** [get_sentry_issue_details] (lines 18-50). *)
Definition get_sentry_issue_details (issue_id : string) : json :=
  match
    (let? details := get_issue_details issue_id in
     let? id := py_get details "id" JNull in
     let? title := py_get details "title" JNull in
     let? culprit := py_get details "culprit" JNull in
     let? level := py_get details "level" JNull in
     let? status := py_get details "status" JNull in
     let? count := py_get details "count" JNull in
     let? user_count := py_get details "userCount" (JInt 0) in
     let? first_seen := py_get details "firstSeen" JNull in
     let? last_seen := py_get details "lastSeen" JNull in
     let? metadata := py_get details "metadata" JNull in
     let? tags := py_get details "tags" (JArr []) in
     let? items := py_iter tags in
     let? keys := tag_keys items in
     let? permalink := py_get details "permalink" JNull in
     inr (JObj [("id", id); ("title", title); ("culprit", culprit);
                ("level", level); ("status", status); ("count", count);
                ("user_count", user_count); ("first_seen", first_seen);
                ("last_seen", last_seen); ("metadata", metadata);
                ("tags", JArr (firstn 5 keys)); ("permalink", permalink)]))
  with
  | inr d => d
  | inl e => JObj [("error", JStr e); ("issue_id", JStr issue_id)]
  end.

(** The [for entry in entries] loop of [get_stacktrace]: the dict built
    from the first exception entry with values, if there is one. *)
Fixpoint exception_scan (entries : list json) : string + option json :=
  match entries with
  | [] => inr None
  | entry :: r =>
      let? ty := py_get entry "type" JNull in
      if json_is_str "exception" ty then
        let? exception_data := py_get entry "data" (JObj []) in
        let? values := py_get exception_data "values" (JArr []) in
        if truthy values then
          let? exception := py_index0 values in
          let? ty' := py_get exception "type" (JStr "Unknown") in
          let? value := py_get exception "value" (JStr "") in
          let? stacktrace := py_get exception "stacktrace" (JObj []) in
          let? mechanism := py_get exception "mechanism" (JObj []) in
          inr (Some (JObj [("type", ty'); ("value", value);
                           ("stacktrace", stacktrace); ("mechanism", mechanism)]))
        else exception_scan r
      else exception_scan r
  end.

(** [get_stacktrace] (lines 53-100). *)
Definition get_stacktrace (issue_id : string) : json :=
  match
    (let? events := get_issue_events issue_id 1 in
     if negb (truthy events) then
       inr (JObj [("error", JStr "No events found"); ("issue_id", JStr issue_id)])
     else
       let? event := py_index0 events in
       let? entries := py_get event "entries" (JArr []) in
       let? items := py_iter entries in
       let? found := exception_scan items in
       match found with
       | Some d => inr d
       | None =>
           let? event_id := py_get event "id" JNull in
           let? platform := py_get event "platform" JNull in
           let? msg := py_get event "message" (JStr "") in
           let? n := py_len entries in
           inr (JObj [("event_id", event_id); ("platform", platform);
                      ("message", msg); ("entries", JInt (Z.of_nat n))])
       end)
  with
  | inr d => d
  | inl e => JObj [("error", JStr e); ("issue_id", JStr issue_id)]
  end.

(** The trend computation of [analyze_error_frequency] (lines 155-174). *)
Definition frequency_trend (stats : json) : string + string :=
  let? has_24h := py_in "24h" stats in
  if has_24h then
    let? hourly_data := py_getitem_str stats "24h" in
    let? halves := py_halves hourly_data in
    let? first_half := second_items (fst halves) in
    let? second_half := second_items (snd halves) in
    let? first_avg := py_avg first_half in
    let? second_avg := py_avg second_half in
    inr (trend_of first_avg second_avg)
  else inr "unknown".

(** [analyze_error_frequency] (lines 142-193). *)
Definition analyze_error_frequency (issue_id : string) : json :=
  match
    (let? details := get_issue_details issue_id in
     let? stats := py_get details "stats" (JObj []) in
     let? trend := frequency_trend stats in
     let? total := py_get details "count" (JInt 0) in
     let? first_seen := py_get details "firstSeen" JNull in
     let? last_seen := py_get details "lastSeen" JNull in
     let? c1 := (let? c := py_get details "count" (JInt 0) in py_int_of c) in
     let? frequency :=
       (if Z.ltb 100 c1 then inr "high"
        else let? c2 := (let? c := py_get details "count" (JInt 0) in py_int_of c) in
             inr (if Z.ltb 10 c2 then "medium" else "low")) in
     inr (JObj [("issue_id", JStr issue_id); ("total_occurrences", total);
                ("trend", JStr trend); ("first_seen", first_seen);
                ("last_seen", last_seen); ("frequency", JStr frequency)]))
  with
  | inr d => d
  | inl e => JObj [("error", JStr e); ("issue_id", JStr issue_id);
                   ("trend", JStr "unknown")]
  end.

(** [get_user_impact] (lines 196-237). *)
Definition get_user_impact (issue_id : string) : list (string * pyval) :=
  match
    (let? details := get_issue_details issue_id in
     let? user_count := py_get details "userCount" (JInt 0) in
     let? total_count := py_get details "count" (JInt 0) in
     let? impact_level :=
       (let? gt1000 := py_gt_int user_count 1000 in
        if gt1000 then inr "critical" else
        let? gt100 := py_gt_int user_count 100 in
        if gt100 then inr "high" else
        let? gt10 := py_gt_int user_count 10 in
        inr (if gt10 then "medium" else "low")) in
     let? avg :=
       (let? pos := py_gt_int user_count 0 in
        if pos then
          let? q := py_truediv total_count user_count in
          inr (PRoundDiv (fst q) (snd q) 2)
        else inr (PJson (JInt 0))) in
     inr [("issue_id", PJson (JStr issue_id)); ("affected_users", PJson user_count);
          ("total_occurrences", PJson total_count);
          ("impact_level", PJson (JStr impact_level)); ("avg_per_user", avg)])
  with
  | inr d => d
  | inl e => [("error", PJson (JStr e)); ("issue_id", PJson (JStr issue_id));
              ("affected_users", PJson (JInt 0)); ("impact_level", PJson (JStr "unknown"))]
  end.

End ToolBodies.

End Tools.

(** The label chains, for the statements of the monotonicity lemmas. *)
Definition frequency_label (c : Z) : string :=
  if Z.ltb 100 c then "high" else if Z.ltb 10 c then "medium" else "low".

Definition impact_label (u : Z) : string :=
  if Z.ltb 1000 u then "critical" else if Z.ltb 100 u then "high"
  else if Z.ltb 10 u then "medium" else "low".

(* ================================================================== *)
(** ** Think iterations of [investigate] and the text of a plan *)

(** The events of one [Think] iteration numbered [k] with reply [r]. *)
Definition think_step_events (self : agent) (k : nat) (r : string) : list event :=
  match stream_callback self with
  | Some _ =>
      [EvStep "iteration" (JObj [("number", JInt (Z.of_nat k));
                                 ("max", JInt (Z.of_nat (max_iterations self)))]);
       EvStep "thinking" (JObj [("iteration", JInt (Z.of_nat k)); ("reasoning", JStr r)])]
  | None => []
  end.

(** The messages one [Think] iteration numbered [k] appends. *)
Definition think_step_messages (self : agent) (k : nat) (r : string) : list message :=
  AIMessage r :: (if Nat.leb (max_iterations self - 1) k
                  then [HumanMessage Prompts.max_iterations_nudge] else []).

(** The state after one [Think] iteration numbered [k]. *)
Definition think_step_state (llm : list message -> string) (self : agent) (k : nat)
  (s : st) : st :=
  let r := llm (conversation_history s) in
  mkSt (conversation_history s ++ think_step_messages self k r)
       (llm_calls s ++ [conversation_history s])
       (tool_calls s)
       (events s ++ think_step_events self k r).

(** The state after [f] [Think] iterations following iteration [i]. *)
Fixpoint think_run (llm : list message -> string) (self : agent) (f i : nat)
  (s : st) : st :=
  match f with
  | O => s
  | S f' => think_run llm self f' (S i) (think_step_state llm self (S i) s)
  end.

(** [c in s] for a character. *)
Fixpoint has_char (c : ascii) (s : string) : bool :=
  match s with
  | EmptyString => false
  | String d r => Ascii.eqb c d || has_char c r
  end.

Fixpoint all_chars (p : ascii -> bool) (s : string) : bool :=
  match s with
  | EmptyString => true
  | String d r => p d && all_chars p r
  end.

(** The first (last) character exists and is not whitespace. *)
Definition first_nonws (s : string) : bool :=
  match s with String c _ => negb (is_ws c) | EmptyString => false end.
Definition last_nonws (s : string) : bool := first_nonws (rev_str s).

(** A line [<digits>. <tool name> - <why>] of the format asked for by
    [planning_prompt]. *)
Definition plan_line (item : string * string * string) : string :=
  let '(d, name, why) := item in d ++ ". " ++ name ++ " - " ++ why.

Definition plan_text (items : list (string * string * string)) : string :=
  join nl (map plan_line items).

(** A number, a tool name without surrounding blanks, dots, dashes or
    line breaks, and a reason on one line that does not end in a blank. *)
Definition plan_item_ok (item : string * string * string) : bool :=
  let '(d, name, why) := item in
  first_nonws d && all_chars is_digit d
  && first_nonws name && last_nonws name
  && negb (has_char "."%char name) && negb (has_char "-"%char name)
  && negb (has_char (ascii_of_nat 10) name)
  && last_nonws why && negb (has_char (ascii_of_nat 10) why).

(* ================================================================== *)
(** ** Predicates and concrete inputs used by the proofs *)

(** A stream callback that returns normally on every event. *)
Definition callback_never_raises (self : agent) : Prop :=
  forall cb, stream_callback self = Some cb -> forall ev, cb ev = None.

(** The state after [_emit_step] when the callback returns normally. *)
Definition after_emit (self : agent) (t : string) (d : json) (s : st) : st :=
  match stream_callback self with
  | Some _ => log_event (EvStep t d) s
  | None => s
  end.

(** Computations that only append to [self.conversation_history]. *)
Definition appends {A} (c : M A) : Prop :=
  forall s, exists suffix,
    conversation_history (snd (c s)) = (conversation_history s ++ suffix)%list.

(** How a run ends for the callback [cb], given the events [evs] it
    passed to [cb], in order: [cb] returned normally on each of them and
    the run returned a value, or [cb] raised [m] on the last of them and
    the run raised [m]. *)
Definition callback_outcome {A} (cb : callback) (r : res A) (evs : list event)
  : Prop :=
  ((exists a, r = Ok a) /\ Forall (fun ev => cb ev = None) evs)
  \/ (exists pre ev m, evs = (pre ++ [ev])%list
        /\ Forall (fun e => cb e = None) pre /\ cb ev = Some m /\ r = Raise m).

(** Computations whose callback calls all end as [callback_outcome] says. *)
Definition callback_trace {A} (cb : callback) (c : M A) : Prop :=
  forall s, exists evs,
    events (snd (c s)) = (events s ++ evs)%list /\ callback_outcome cb (fst (c s)) evs.

(** Two runs that differ only in the events delivered to the callback. *)
Definition same_but_events (s1 s2 : st) : Prop :=
  conversation_history s1 = conversation_history s2
  /\ llm_calls s1 = llm_calls s2 /\ tool_calls s1 = tool_calls s2.

Definition sim {A} (c1 c2 : M A) : Prop :=
  forall s1 s2, same_but_events s1 s2 ->
    fst (c1 s1) = fst (c2 s2) /\ same_but_events (snd (c1 s1)) (snd (c2 s2)).

Definition message_eqb (a b : message) : bool :=
  match a, b with
  | SystemMessage x, SystemMessage y => String.eqb x y
  | HumanMessage x, HumanMessage y => String.eqb x y
  | AIMessage x, AIMessage y => String.eqb x y
  | _, _ => false
  end.

Definition s0 : st := mkSt [] [] [] [].
Definition answer_reply : string :=
  "ACTION: ANSWER" ++ nl ++ "ROOT_CAUSE: Null checkout reference" ++ nl
  ++ "CONFIDENCE: 85".
Definition think_reply : string :=
  "ACTION: THINK" ++ nl ++ "REASONING:" ++ nl ++ "Look at the stack trace first.".
Definition plan_reply : string :=
  "1. get_stacktrace - to see where it fails".
(** Model stubs. *)
Definition answer_stub (_ : list message) : string := answer_reply.
Definition think_stub (_ : list message) : string := think_reply.
Definition planning_stub (messages : list message) : string :=
  match messages with
  | SystemMessage c :: _ =>
      if String.eqb c "You are an expert debugger. Create an investigation plan."
      then plan_reply else think_reply
  | _ => think_reply
  end.
(** Tool stubs. *)
Definition quiet_tools (_ : string) (_ : list (string * json)) : string + json :=
  inr (JObj [("title", JStr "NullPointer in checkout")]).
Definition failing_tools (_ : string) (_ : list (string * json)) : string + json :=
  inl "Sentry API unreachable".
(** [json.dumps] and [str] stubs. *)
Definition dumps_stub (_ : json) : string := "{}".
Definition str_stub (_ : json) : string := "{}".
(** Callback stubs. *)
Definition quiet_callback : callback := fun _ => None.
Definition broken_callback : callback := fun _ => Some "connection closed".

Definition tool_call_reply : string :=
  "ACTION: TOOL_CALL" ++ nl ++ "TOOL: get_stacktrace" ++ nl
  ++ "ARGUMENTS: " ++ dequote "{^issue_id^: ^X^}".


(** Sentry payloads for the tool lemmas' witnesses. *)
Definition demo_tag (k : string) : json := JObj [("key", JStr k); ("value", JStr "v")].

Definition demo_issue (count user_count : json) (series : list json) : list (string * json) :=
  [("id", JStr "42"); ("title", JStr "TypeError in checkout");
   ("count", count); ("userCount", user_count);
   ("firstSeen", JStr "2024-05-01T10:00:00Z"); ("lastSeen", JStr "2024-05-02T10:00:00Z");
   ("tags", JArr (map demo_tag ["browser"; "os"; "device"; "url"; "release"; "user"]));
   ("stats", JObj [("24h", JArr series)])].

Definition demo_source (kv : list (string * json)) (_ : string) : string + json :=
  inr (JObj kv).

Definition request_entry : json := JObj [("type", JStr "request"); ("data", JObj [])].
Definition empty_exception_entry : json :=
  JObj [("type", JStr "exception"); ("data", JObj [("values", JArr [])])].
Definition value_error : list (string * json) :=
  [("type", JStr "ValueError"); ("value", JStr "bad input")].
Definition exception_entry : list (string * json) :=
  [("type", JStr "exception"); ("data", JObj [("values", JArr [JObj value_error])])].
Definition demo_event (entries : list json) : list (string * json) :=
  [("id", JStr "ev1"); ("platform", JStr "python"); ("entries", JArr entries)].
Definition demo_events (kv : list (string * json)) (_ : string) (_ : nat) : string + json :=
  inr (JArr [JObj kv]).

(** A plan in the format of the planning prompt. *)
Definition demo_plan : list (string * string * string) :=
  [("1", "get_stacktrace", "to see where it fails");
   ("2", "get_user_impact", "to see how many users are hit")].

Open Scope list_scope.

(* ================================================================== *)
(** ** Facts about the model *)

Lemma emit_ok self t d s :
  callback_never_raises self ->
  _emit_step self t d s = (Ok tt, after_emit self t d s).
Proof.
  intros H. unfold _emit_step, after_emit.
  destruct (stream_callback self) as [cb|] eqn:E; [|reflexivity].
  unfold call_callback. rewrite (H cb E). reflexivity.
Qed.

Lemma after_emit_history self t d s :
  conversation_history (after_emit self t d s) = conversation_history s.
Proof. unfold after_emit; destruct (stream_callback self); reflexivity. Qed.

Lemma after_emit_llm self t d s :
  llm_calls (after_emit self t d s) = llm_calls s.
Proof. unfold after_emit; destruct (stream_callback self); reflexivity. Qed.

Lemma after_emit_tools self t d s :
  tool_calls (after_emit self t d s) = tool_calls s.
Proof. unfold after_emit; destruct (stream_callback self); reflexivity. Qed.

(** The local [action] of [_parse_llm_response] stays [None], so the
    fallback is taken on every input. *)
Lemma parse_llm_response_fallback jl response :
  _parse_llm_response jl response = Some (PThink response).
Proof. reflexivity. Qed.

Section Loop.

Variable json_loads : string -> option json.
Variable json_dumps : json -> string.
Variable py_str : json -> string.
Variable llm : list message -> string.
Variable tool_impl : string -> list (string * json) -> string + json.

(** With a callback that returns normally, the loop runs all its
    iterations without an answer. *)
Lemma react_loop_no_answer self fuel iteration obs s :
  callback_never_raises self ->
  exists obs' s',
    react_loop json_loads json_dumps py_str llm tool_impl self fuel iteration obs s
      = (Ok (iteration + fuel, obs', None), s')
    /\ length (llm_calls s') = length (llm_calls s) + fuel
    /\ length obs' = length obs + fuel.
Proof.
  intros Hcb. revert iteration obs s.
  induction fuel as [|f IH]; intros iteration obs s.
  - exists obs, s. rewrite !Nat.add_0_r. auto.
  - cbn [react_loop]. unfold bind at 1. rewrite emit_ok by exact Hcb.
    cbn - [_parse_llm_response handle_parsed].
    rewrite parse_llm_response_fallback. unfold handle_parsed, bind.
    rewrite emit_ok by exact Hcb. cbn - [react_loop].
    destruct (Nat.leb (max_iterations self - 1) (S iteration));
      cbn - [react_loop];
      match goal with
      | |- context [react_loop _ _ _ _ _ self f (S iteration) ?o ?st] =>
          destruct (IH (S iteration) o st) as (obs' & s' & Hrun & Hl & Ho)
      end;
      exists obs', s'; rewrite Hrun; rewrite <- plus_n_Sm;
      (split; [reflexivity|]); rewrite Hl; cbn;
      rewrite ?after_emit_llm; cbn; rewrite ?after_emit_llm;
      rewrite length_app in Ho; cbn in Ho; rewrite length_app; cbn; lia.
Qed.

(** [bind] returns a value only when both parts do. *)
Lemma bind_ok_inv {A B} (c : M A) (k : A -> M B) s b s' :
  bind c k s = (Ok b, s') ->
  exists a s1, c s = (Ok a, s1) /\ k a s1 = (Ok b, s').
Proof.
  unfold bind. destruct (c s) as [[a|m] s1]; intros H; [eauto|discriminate].
Qed.

Lemma appends_ret {A} (a : A) : appends (ret a).
Proof. intros s. exists []. rewrite app_nil_r. reflexivity. Qed.

Lemma appends_raise {A} m : appends (@raise A m).
Proof. intros s. exists []. rewrite app_nil_r. reflexivity. Qed.

Lemma appends_bind {A B} (c : M A) (k : A -> M B) :
  appends c -> (forall a, appends (k a)) -> appends (bind c k).
Proof.
  intros Hc Hk s. unfold bind. destruct (Hc s) as [suf1 H1].
  destruct (c s) as [[a|m] s1] eqn:E; cbn in H1.
  - destruct (Hk a s1) as [suf2 H2]. exists (suf1 ++ suf2).
    rewrite H2, H1, app_assoc. reflexivity.
  - exists suf1. exact H1.
Qed.

Lemma appends_try {A} (c : M A) h :
  appends c -> (forall m, appends (h m)) -> appends (try_except c h).
Proof.
  intros Hc Hh s. unfold try_except. destruct (Hc s) as [suf1 H1].
  destruct (c s) as [[a|m] s1] eqn:E; cbn in H1.
  - exists suf1. exact H1.
  - destruct (Hh m s1) as [suf2 H2]. exists (suf1 ++ suf2).
    rewrite H2, H1, app_assoc. reflexivity.
Qed.

Lemma appends_append_history m : appends (append_history m).
Proof. intros s. exists [m]. reflexivity. Qed.

Lemma appends_emit self t d : appends (_emit_step self t d).
Proof.
  intros s. exists []. rewrite app_nil_r. unfold _emit_step.
  destruct (stream_callback self); reflexivity.
Qed.

Lemma appends_call_callback cb ev : appends (call_callback cb ev).
Proof. intros s. exists []. rewrite app_nil_r. reflexivity. Qed.

Lemma appends_get_history : appends get_history.
Proof. intros s. exists []. rewrite app_nil_r. reflexivity. Qed.

Lemma appends_ainvoke m : appends (ainvoke llm m).
Proof. intros s. exists []. rewrite app_nil_r. reflexivity. Qed.

Lemma appends_call_tool n a : appends (call_tool tool_impl n a).
Proof.
  intros s. exists []. rewrite app_nil_r. unfold call_tool.
  destruct a; try reflexivity.
Qed.

Create HintDb appends_db.
#[local] Hint Resolve appends_ret appends_raise appends_bind appends_try
  appends_append_history appends_emit appends_call_callback
  appends_get_history appends_ainvoke appends_call_tool : appends_db.

Ltac appends_auto :=
  repeat (intros; match goal with
                  | |- appends (bind _ _) => apply appends_bind
                  | |- appends (try_except _ _) => apply appends_try
                  | |- appends (match ?x with _ => _ end) => destruct x
                  | |- appends (if ?b then _ else _) => destruct b
                  | |- appends (let _ := _ in _) => cbv zeta
                  | |- _ => progress (eauto with appends_db)
                  end).

Lemma appends_execute_tool self n a :
  appends (_execute_tool py_str tool_impl self n a).
Proof. unfold _execute_tool. appends_auto. Qed.

Lemma appends_handle_parsed self it obs p :
  appends (handle_parsed json_dumps py_str tool_impl self it obs p).
Proof.
  unfold handle_parsed. appends_auto; apply appends_execute_tool.
Qed.

Lemma appends_react_loop self fuel it obs :
  appends (react_loop json_loads json_dumps py_str llm tool_impl self fuel it obs).
Proof.
  revert it obs. induction fuel as [|f IH]; intros it obs; cbn [react_loop].
  - apply appends_ret.
  - appends_auto; try apply appends_handle_parsed; apply IH.
Qed.

Ltac inv_binds H :=
  repeat match type of H with
    | bind _ _ _ = (Ok _, _) =>
        let a := fresh "a" in let s1 := fresh "s" in let E := fresh "E" in
        apply bind_ok_inv in H; destruct H as (a & s1 & E & H)
    | (match ?x with _ => _ end) _ = _ => destruct x
    | (if ?b then _ else _) _ = _ => destruct b
    | (let (_, _) := ?p in _) = _ => destruct p
    end.

Lemma handle_parsed_break self it obs p s r s' :
  handle_parsed json_dumps py_str tool_impl self it obs p s = (Ok (Break r), s') ->
  iterations r = it.
Proof.
  intros H. destruct p; unfold handle_parsed in H; inv_binds H;
    cbn in H; inversion H; reflexivity.
Qed.

Lemma react_loop_iterations self fuel it obs s i o f s' :
  react_loop json_loads json_dumps py_str llm tool_impl self fuel it obs s
    = (Ok (i, o, f), s') ->
  i <= it + fuel /\ (forall r, f = Some r -> iterations r = i).
Proof.
  revert it obs s. induction fuel as [|fu IH]; intros it obs s H.
  - cbn in H. inversion H; subst. split; [lia | discriminate].
  - cbn [react_loop] in H. inv_binds H; try (cbn in H; discriminate H).
    + destruct (IH _ _ _ H) as [Hi Hf]. split; [lia | exact Hf].
    + cbn in H. inversion H; subst. split; [lia|].
      intros r Hr; inversion Hr; subst. eapply handle_parsed_break; eassumption.
Qed.

Lemma investigate_iterations_bound self issue_id error_message s r s' :
  investigate json_loads json_dumps py_str llm tool_impl self issue_id error_message s
    = (Ok r, s') ->
  iterations r <= max_iterations self.
Proof.
  intros H. unfold investigate in H. inv_binds H.
  match goal with
  | E : react_loop _ _ _ _ _ _ _ _ _ _ = (Ok (?n, ?l, ?o), _) |- _ =>
      destruct (react_loop_iterations _ _ _ _ _ _ _ _ _ E) as [Hi Hf];
      destruct o as [r0|]; cbn in H; inversion H; subst
  end.
  - rewrite (Hf _ eq_refl). lia.
  - cbn. lia.
Qed.

(** C3: with a model whose every reply parses as [Think], [investigate]
    makes exactly [max_iterations] model calls in its loop and returns the
    exhaustion result: [max_iterations] iterations, confidence 0.3 and the
    single key finding that the iteration limit was reached. *)
Theorem investigate_think_stub_exhausts self issue_id error_message s
  (Hcb : callback_never_raises self)
  (Hthink : forall h, exists reasoning,
     _parse_llm_response json_loads (llm h) = Some (PThink reasoning)) :
  exists r s',
    investigate json_loads json_dumps py_str llm tool_impl self
      issue_id error_message s = (Ok r, s')
    /\ r = exhausted_result (max_iterations self) (observations r)
    /\ iterations r = max_iterations self
    /\ confidence r = 3 # 10
    /\ key_findings r
         = JArr [JStr "Investigation did not complete within iteration limit"]
    /\ length (llm_calls s') = length (llm_calls s) + max_iterations self.
Proof.
  unfold investigate, bind at 1. rewrite emit_ok by exact Hcb. cbn - [react_loop].
  destruct (react_loop_no_answer self (max_iterations self) 0 []
              (set_history (initial_history issue_id error_message)
                 (after_emit self "start"
                    (JObj [("issue_id", JStr issue_id);
                           ("error_message", JStr error_message);
                           ("mode", JStr "autonomous")]) s)) Hcb)
    as (obs' & s' & Hrun & Hl & _).
  unfold bind at 1. rewrite Hrun. cbn.
  destruct (stream_callback self) as [cb|] eqn:E.
  - unfold call_callback. rewrite (Hcb cb E). cbn.
    eexists _, _. repeat split.
    cbn. rewrite Hl. cbn. rewrite after_emit_llm. reflexivity.
  - cbn. eexists _, _. repeat split.
    cbn. rewrite Hl. cbn. rewrite after_emit_llm. reflexivity.
Qed.

(** C9: every step of the loop only appends to the conversation history,
    whatever the model, the tools and the callback do, and the
    [iterations] of a returned result never exceed [max_iterations]. *)
Theorem loop_history_append_only_iterations_bounded self :
  (forall fuel iteration obs s, exists suffix,
     conversation_history
       (snd (react_loop json_loads json_dumps py_str llm tool_impl self
               fuel iteration obs s))
     = conversation_history s ++ suffix)
  /\ (forall issue_id error_message s r s',
        investigate json_loads json_dumps py_str llm tool_impl self
          issue_id error_message s = (Ok r, s') ->
        iterations r <= max_iterations self).
Proof.
  split.
  - intros fuel iteration obs s. apply appends_react_loop.
  - apply investigate_iterations_bound.
Qed.

Lemma in_tool_map_nonempty tool_name :
  in_tool_map tool_name = true -> tool_name <> ""%string.
Proof. intros H E. subst. discriminate H. Qed.

(** C5: a tool name missing from [tool_map] gives the error dict
    [{"error": "Unknown tool: <name>"}]: no tool capability and no model
    is called, the history is untouched and the only event is the
    [tool_execution] step.  In the loop the call ends in an [OBSERVATION]
    message and the loop goes on; a non-empty name also adds a
    [tool_result] observation carrying the error dict. *)
Theorem execute_unknown_tool_error self tool_name arguments s
  (Hunknown : in_tool_map tool_name = false)
  (Hcb : callback_never_raises self) :
  _execute_tool py_str tool_impl self tool_name arguments s
    = (Ok (JObj [("error", JStr ("Unknown tool: " ++ tool_name)%string)]),
       after_emit self "tool_execution"
         (JObj [("tool", JStr tool_name); ("arguments", arguments)]) s)
  /\ tool_calls (snd (_execute_tool py_str tool_impl self tool_name arguments s))
     = tool_calls s
  /\ llm_calls (snd (_execute_tool py_str tool_impl self tool_name arguments s))
     = llm_calls s
  /\ forall iteration obs, exists s',
       handle_parsed json_dumps py_str tool_impl self iteration obs
         (PToolCall (Some tool_name) arguments) s
       = (Ok (Continue
                (if String.eqb tool_name "" then obs
                 else obs ++ [OToolResult tool_name
                                (JObj [("error", JStr ("Unknown tool: " ++ tool_name)%string)])])),
          s')
       /\ conversation_history s'
          = conversation_history s
            ++ [HumanMessage
                  (if String.eqb tool_name "" then
                     "OBSERVATION: Tool call failed - no tool name provided"
                   else "OBSERVATION: " ++ observation_text json_dumps tool_name
                          (JObj [("error", JStr ("Unknown tool: " ++ tool_name)%string)]))%string]
       /\ tool_calls s' = tool_calls s.
Proof.
  assert (Hexec : forall s0,
    _execute_tool py_str tool_impl self tool_name arguments s0
    = (Ok (JObj [("error", JStr ("Unknown tool: " ++ tool_name)%string)]),
       after_emit self "tool_execution"
         (JObj [("tool", JStr tool_name); ("arguments", arguments)]) s0)).
  { intros s0. unfold _execute_tool, bind. rewrite emit_ok by exact Hcb.
    rewrite Hunknown. reflexivity. }
  split; [apply Hexec|].
  rewrite Hexec. cbn [snd]. rewrite after_emit_tools, after_emit_llm.
  split; [reflexivity|]. split; [reflexivity|].
  intros iteration obs. unfold handle_parsed, bind at 1.
  rewrite emit_ok by exact Hcb.
  destruct (String.eqb tool_name "") eqn:Ee; cbn - [_execute_tool].
  - apply String.eqb_eq in Ee. subst. cbn.
    eexists. split; [reflexivity|].
    cbn [set_history conversation_history tool_calls]. rewrite after_emit_history, after_emit_tools. split; reflexivity.
  - unfold bind at 1. rewrite Hexec. cbn.
    eexists. split; [reflexivity|].
    cbn [set_history conversation_history tool_calls log_event]. rewrite !after_emit_history, !after_emit_tools. split; reflexivity.
Qed.

(** C6: an exception with message [m] raised by a registered tool gives
    [{"error": m}], and [_execute_tool] returns a value on every tool
    name and every arguments value. *)
Theorem execute_tool_contains_exceptions self tool_name arguments s
  (Hcb : callback_never_raises self) :
  (forall kv m,
     in_tool_map tool_name = true ->
     arguments = JObj kv ->
     tool_impl tool_name kv = inl m ->
     fst (_execute_tool py_str tool_impl self tool_name arguments s)
       = Ok (JObj [("error", JStr m)]))
  /\ exists v, fst (_execute_tool py_str tool_impl self tool_name arguments s) = Ok v.
Proof.
  unfold _execute_tool, bind. rewrite emit_ok by exact Hcb.
  split.
  - intros kv m Hreg Harg Hraise. rewrite Hreg. subst arguments. cbn [negb].
    unfold try_except, call_tool. rewrite Hraise. cbn beta iota.
    rewrite emit_ok by exact Hcb. reflexivity.
  - destruct (negb (in_tool_map tool_name)); [eexists; reflexivity|].
    unfold try_except, call_tool.
    destruct arguments as [| | | | |kv]; cbn beta iota;
      try (unfold raise; rewrite emit_ok by exact Hcb; eexists; reflexivity).
    destruct (tool_impl tool_name kv); cbn beta iota;
      rewrite emit_ok by exact Hcb; eexists; reflexivity.
Qed.

(** C10: a successful tool call returns the tool's result unchanged; the
    [OBSERVATION] message holds [json.dumps] of the whole result, the
    observation log holds the result itself, and only the
    [result_preview] of the [tool_result] event is cut to 200 characters. *)
Theorem execute_tool_success_untruncated self tool_name kv r s iteration obs
  (Hcb : callback_never_raises self)
  (Hreg : in_tool_map tool_name = true)
  (Hok : tool_impl tool_name kv = inr r) :
  (exists s',
     _execute_tool py_str tool_impl self tool_name (JObj kv) s = (Ok r, s')
     /\ events s' = events s
          ++ match stream_callback self with
             | Some _ =>
                 [EvStep "tool_execution"
                    (JObj [("tool", JStr tool_name); ("arguments", JObj kv)]);
                  EvStep "tool_result"
                    (JObj [("tool", JStr tool_name); ("success", JBool true);
                           ("result_preview", JStr (result_preview py_str r))])]
             | None => []
             end)
  /\ exists s'',
       handle_parsed json_dumps py_str tool_impl self iteration obs
         (PToolCall (Some tool_name) (JObj kv)) s
       = (Ok (Continue (obs ++ [OToolResult tool_name r])), s'')
       /\ conversation_history s''
          = conversation_history s
            ++ [HumanMessage ("OBSERVATION: Tool '" ++ tool_name ++ "' returned: "
                              ++ json_dumps r)%string].
Proof.
  assert (Hexec : forall s0,
    _execute_tool py_str tool_impl self tool_name (JObj kv) s0
    = (Ok r, after_emit self "tool_result"
               (JObj [("tool", JStr tool_name); ("success", JBool true);
                      ("result_preview", JStr (result_preview py_str r))])
               (log_tool (tool_name, kv)
                  (after_emit self "tool_execution"
                     (JObj [("tool", JStr tool_name); ("arguments", JObj kv)]) s0)))).
  { intros s0. unfold _execute_tool, bind. rewrite emit_ok by exact Hcb.
    rewrite Hreg. cbn. unfold try_except, bind, call_tool. rewrite Hok.
    rewrite emit_ok by exact Hcb. reflexivity. }
  split.
  - eexists. split; [apply Hexec|].
    unfold after_emit. destruct (stream_callback self); cbn;
      [rewrite <- app_assoc; reflexivity | rewrite app_nil_r; reflexivity].
  - unfold handle_parsed, bind at 1. rewrite emit_ok by exact Hcb.
    pose proof (in_tool_map_nonempty _ Hreg) as Hne.
    apply String.eqb_neq in Hne. cbn - [_execute_tool]. rewrite Hne. cbn - [_execute_tool].
    unfold bind at 1. rewrite Hexec. cbn.
    eexists. split; [reflexivity|].
    do 3 (cbn [set_history conversation_history log_tool];
          rewrite ?after_emit_history).
    reflexivity.
Qed.

Lemma sim_ret {A} (a : A) : sim (ret a) (ret a).
Proof. intros s1 s2 H. split; [reflexivity | exact H]. Qed.

Lemma sim_raise {A} m : sim (@raise A m) (@raise A m).
Proof. intros s1 s2 H. split; [reflexivity | exact H]. Qed.

Lemma sim_bind {A B} (c1 c2 : M A) (k1 k2 : A -> M B) :
  sim c1 c2 -> (forall a, sim (k1 a) (k2 a)) -> sim (bind c1 k1) (bind c2 k2).
Proof.
  intros Hc Hk s1 s2 H. unfold bind.
  destruct (Hc s1 s2 H) as [Hf Hs].
  destruct (c1 s1) as [[a|m] t1], (c2 s2) as [[a'|m'] t2];
    cbn in Hf, Hs; try discriminate Hf.
  - inversion Hf; subst. apply Hk. exact Hs.
  - inversion Hf; subst. split; [reflexivity | exact Hs].
Qed.

Lemma sim_try {A} (c1 c2 : M A) h1 h2 :
  sim c1 c2 -> (forall m, sim (h1 m) (h2 m)) ->
  sim (try_except c1 h1) (try_except c2 h2).
Proof.
  intros Hc Hh s1 s2 H. unfold try_except.
  destruct (Hc s1 s2 H) as [Hf Hs].
  destruct (c1 s1) as [[a|m] t1], (c2 s2) as [[a'|m'] t2];
    cbn in Hf, Hs; try discriminate Hf.
  - inversion Hf; subst. split; [reflexivity | exact Hs].
  - inversion Hf; subst. apply Hh. exact Hs.
Qed.

Lemma sim_append_history m : sim (append_history m) (append_history m).
Proof.
  intros s1 s2 (H1 & H2 & H3). cbn. rewrite H1. split; [reflexivity|].
  repeat split; assumption.
Qed.

Lemma sim_set_history h : sim (modify (set_history h)) (modify (set_history h)).
Proof.
  intros s1 s2 (H1 & H2 & H3). cbn. split; [reflexivity|].
  repeat split; assumption.
Qed.

Lemma sim_get_history : sim get_history get_history.
Proof.
  intros s1 s2 (H1 & H2 & H3). cbn. rewrite H1. split; [reflexivity|].
  repeat split; assumption.
Qed.

Lemma sim_ainvoke m : sim (ainvoke llm m) (ainvoke llm m).
Proof.
  intros s1 s2 (H1 & H2 & H3). split; [reflexivity|].
  unfold same_but_events; cbn. rewrite H2. repeat split; assumption.
Qed.

Lemma sim_call_tool n a : sim (call_tool tool_impl n a) (call_tool tool_impl n a).
Proof.
  intros s1 s2 (H1 & H2 & H3). unfold call_tool.
  destruct a; cbn; try (split; [reflexivity | repeat split; assumption]).
  split; [reflexivity|]. unfold same_but_events; cbn.
  rewrite H3. repeat split; assumption.
Qed.

Lemma sim_emit a1 a2 t1 d1 t2 d2 :
  callback_never_raises a1 -> callback_never_raises a2 ->
  sim (_emit_step a1 t1 d1) (_emit_step a2 t2 d2).
Proof.
  intros H1 H2 s1 s2 Hs. rewrite !emit_ok by assumption.
  split; [reflexivity|]. destruct Hs as (Hh & Hl & Ht).
  unfold same_but_events; cbn [snd].
  rewrite !after_emit_history, !after_emit_llm, !after_emit_tools. auto.
Qed.

Lemma sim_complete self1 self2 ev1 ev2 :
  callback_never_raises self1 -> callback_never_raises self2 ->
  sim (match stream_callback self1 with
       | Some cb => call_callback cb ev1 | None => ret tt end)
      (match stream_callback self2 with
       | Some cb => call_callback cb ev2 | None => ret tt end).
Proof.
  intros H1 H2 s1 s2 Hs.
  destruct (stream_callback self1) as [c1|] eqn:E1,
           (stream_callback self2) as [c2|] eqn:E2;
    unfold call_callback, ret; cbn;
    rewrite ?(H1 c1 E1), ?(H2 c2 E2); (split; [reflexivity|]);
    destruct Hs as (Hh & Hl & Ht); repeat split; assumption.
Qed.

Section Sim.

Variables a1 a2 : agent.
Hypothesis H1 : callback_never_raises a1.
Hypothesis H2 : callback_never_raises a2.
Hypothesis Hmax : max_iterations a1 = max_iterations a2.

Ltac sim_auto :=
  repeat (intros; match goal with
    | |- sim (bind _ _) (bind _ _) => apply sim_bind
    | |- sim (try_except _ _) (try_except _ _) => apply sim_try
    | |- sim (_emit_step _ _ _) (_emit_step _ _ _) => apply sim_emit; assumption
    | |- sim (match ?x with _ => _ end) (match ?x with _ => _ end) => destruct x
    | |- sim (if ?b then _ else _) (if ?b then _ else _) => destruct b
    | |- sim (let _ := _ in _) _ => cbv zeta
    | |- sim (ret _) (ret _) => apply sim_ret
    | |- sim (raise _) (raise _) => apply sim_raise
    | |- sim (append_history _) (append_history _) => apply sim_append_history
    | |- sim get_history get_history => apply sim_get_history
    | |- sim (ainvoke _ _) (ainvoke _ _) => apply sim_ainvoke
    | |- sim (call_tool _ _ _) (call_tool _ _ _) => apply sim_call_tool
    | |- sim (modify (set_history _)) (modify (set_history _)) => apply sim_set_history
    end).

Lemma sim_execute_tool n a :
  sim (_execute_tool py_str tool_impl a1 n a) (_execute_tool py_str tool_impl a2 n a).
Proof. unfold _execute_tool. sim_auto. Qed.

Lemma sim_handle_parsed it obs p :
  sim (handle_parsed json_dumps py_str tool_impl a1 it obs p)
      (handle_parsed json_dumps py_str tool_impl a2 it obs p).
Proof. unfold handle_parsed. sim_auto; apply sim_execute_tool. Qed.

Lemma sim_react_loop fuel it obs :
  sim (react_loop json_loads json_dumps py_str llm tool_impl a1 fuel it obs)
      (react_loop json_loads json_dumps py_str llm tool_impl a2 fuel it obs).
Proof.
  revert it obs. induction fuel as [|f IH]; intros it obs; cbn [react_loop].
  - apply sim_ret.
  - rewrite Hmax. sim_auto; [apply sim_handle_parsed | intros; apply IH].
Qed.

Lemma sim_investigate issue_id error_message :
  sim (investigate json_loads json_dumps py_str llm tool_impl a1 issue_id error_message)
      (investigate json_loads json_dumps py_str llm tool_impl a2 issue_id error_message).
Proof.
  unfold investigate. rewrite Hmax. sim_auto.
  - apply sim_react_loop.
  - apply sim_complete; assumption.
Qed.

End Sim.

Lemma trace_ret {A} cb (a : A) : callback_trace cb (ret a).
Proof.
  intros s. exists []. rewrite app_nil_r. split; [reflexivity|].
  left. split; [eexists; reflexivity | constructor].
Qed.

Lemma trace_modify cb f :
  (forall s, events (f s) = events s) -> callback_trace cb (modify f).
Proof.
  intros Hf s. exists []. cbn. rewrite Hf, app_nil_r. split; [reflexivity|].
  left. split; [eexists; reflexivity | constructor].
Qed.

Lemma trace_append_history cb m : callback_trace cb (append_history m).
Proof. apply trace_modify. reflexivity. Qed.

Lemma trace_set_history cb h : callback_trace cb (modify (set_history h)).
Proof. apply trace_modify. reflexivity. Qed.

Lemma trace_get_history cb : callback_trace cb get_history.
Proof.
  intros s. exists []. cbn. rewrite app_nil_r. split; [reflexivity|].
  left. split; [eexists; reflexivity | constructor].
Qed.

Lemma trace_ainvoke cb m : callback_trace cb (ainvoke llm m).
Proof.
  intros s. exists []. cbn. rewrite app_nil_r. split; [reflexivity|].
  left. split; [eexists; reflexivity | constructor].
Qed.

Lemma trace_call_callback cb ev : callback_trace cb (call_callback cb ev).
Proof.
  intros s. exists [ev]. split; [reflexivity|]. cbn [call_callback fst].
  destruct (cb ev) as [m|] eqn:E.
  - right. exists [], ev, m. auto.
  - left. split; [eexists; reflexivity | constructor; [exact E | constructor]].
Qed.

Lemma trace_bind {A B} cb (c : M A) (k : A -> M B) :
  callback_trace cb c -> (forall a, callback_trace cb (k a)) ->
  callback_trace cb (bind c k).
Proof.
  intros Hc Hk s. unfold bind. destruct (Hc s) as (evs1 & He1 & Ho1).
  destruct (c s) as [[a|m] s1]; cbn [fst snd] in He1, Ho1.
  - destruct Ho1 as [[_ Hok1] | (pre & ev & m & _ & _ & _ & Hr)]; [|discriminate Hr].
    destruct (Hk a s1) as (evs2 & He2 & Ho2). exists (evs1 ++ evs2).
    rewrite He2, He1, app_assoc. split; [reflexivity|].
    destruct Ho2 as [[Hr Hok2] | (pre & ev & m & -> & Hpre & Hm & Hr)].
    + left. split; [exact Hr | apply Forall_app; auto].
    + right. exists (evs1 ++ pre), ev, m. rewrite app_assoc.
      repeat split; auto. apply Forall_app; auto.
  - exists evs1. cbn [fst snd]. split; [exact He1|].
    destruct Ho1 as [[[a Hr] _] | (pre & ev & m' & -> & Hpre & Hm & Hr)]; [discriminate Hr|].
    injection Hr as <-. right. exists pre, ev, m. auto.
Qed.

Lemma trace_emit cb n t d : callback_trace cb (_emit_step (mkAgent (Some cb) n) t d).
Proof. apply trace_call_callback. Qed.

(** Every [investigate] run with the callback [cb]: the [Think] path is
    the only one the loop takes, and the callback is called on each of
    its events in turn. *)
Lemma trace_react_loop cb n fuel it obs :
  callback_trace cb
    (react_loop json_loads json_dumps py_str llm tool_impl (mkAgent (Some cb) n) fuel it obs).
Proof.
  revert it obs. induction fuel as [|f IH]; intros it obs; cbn [react_loop].
  - apply trace_ret.
  - apply trace_bind; [apply trace_emit | intros _].
    apply trace_bind; [apply trace_get_history | intros history].
    apply trace_bind; [apply trace_ainvoke | intros response].
    apply trace_bind; [apply trace_append_history | intros _].
    rewrite parse_llm_response_fallback. unfold handle_parsed.
    apply trace_bind.
    + apply trace_bind; [apply trace_emit | intros _]. apply trace_ret.
    + intros [obs'|r]; [|apply trace_ret].
      apply trace_bind; [|intros _; apply IH].
      destruct (Nat.leb _ _); [apply trace_append_history | apply trace_ret].
Qed.

Lemma trace_investigate cb n issue_id error_message :
  callback_trace cb
    (investigate json_loads json_dumps py_str llm tool_impl (mkAgent (Some cb) n)
       issue_id error_message).
Proof.
  unfold investigate.
  apply trace_bind; [apply trace_emit | intros _].
  apply trace_bind; [apply trace_set_history | intros _].
  apply trace_bind; [apply trace_react_loop | intros [[iteration observations] final]].
  apply trace_bind; [apply trace_call_callback | intros _]. apply trace_ret.
Qed.


End Loop.

(* ------------------------------------------------------------------ *)
(** Concrete runs. *)

(** C1: a well-formed [TOOL_CALL] reply with valid JSON arguments.  The
    [TOOL_CALL] branch builds the tool call with the decoded arguments,
    but [_parse_llm_response] returns [Think] with the whole reply. *)
Theorem parse_tool_call_reply_is_think :
  JsonLite.json_loads (dequote "{^issue_id^: ^X^}") = Some (JObj [("issue_id", JStr "X")])
  /\ action_content JsonLite.json_loads (split nl (strip tool_call_reply)) 0
       "ACTION: TOOL_CALL"
     = Some (PToolCall (Some "get_stacktrace") (JObj [("issue_id", JStr "X")]))
  /\ _parse_llm_response JsonLite.json_loads tool_call_reply
     = Some (PThink tool_call_reply).
Proof. vm_compute. repeat split. Qed.

Lemma message_eqb_refl m : message_eqb m m = true.
Proof. destruct m; apply String.eqb_refl. Qed.

Lemma not_in_calls x l :
  forallb (fun h => negb (existsb (message_eqb x) h)) l = true ->
  Forall (fun h => ~ In x h) l.
Proof.
  induction l as [|h l IH]; cbn; intros H; constructor.
  - apply andb_true_iff in H as [H _]. intros Hin.
    assert (existsb (message_eqb x) h = true) as E.
    { apply existsb_exists. exists x. split; [exact Hin | apply message_eqb_refl]. }
    rewrite E in H. discriminate H.
  - apply andb_true_iff in H as [_ H]. exact (IH H).
Qed.

(** C2: a model that answers [CONFIDENCE: 85] on the first iteration.
    The [ANSWER] branch reads confidence 85, but the loop never sees an
    answer: the run ends after 15 iterations with the exhaustion result
    and confidence 0.3. *)
Theorem answer_stub_runs_to_exhaustion :
  answer_content JsonLite.json_loads (split nl (strip answer_reply)) 0
    = Some (PAnswer "Null checkout reference" 85 (JArr []) (JArr []))
  /\ match fst (investigate JsonLite.json_loads dumps_stub str_stub answer_stub
                  quiet_tools (mkAgent None 15) "X" "boom" s0) with
     | Ok r => iterations r = 15 /\ confidence r = 3 # 10
               /\ root_cause r = "Investigation incomplete - maximum iterations reached"
     | Raise _ => False
     end.
Proof. vm_compute. repeat split. Qed.

(** C7: the plan message inserted by [investigate_with_planning] is not
    in any conversation the model is given: [investigate] replaces the
    history, so the first call of the loop gets only the system prompt
    and the task message. *)
Theorem planning_message_not_seen_by_loop :
  let run := investigate_with_planning JsonLite.json_loads dumps_stub str_stub
               planning_stub quiet_tools (mkAgent None 15) "X" "boom" s0 in
  fst (plan_investigation planning_stub (mkAgent None 15) "X" "boom" s0)
    = Ok ["get_stacktrace"]
  /\ nth_error (llm_calls (snd run)) 1 = Some (initial_history "X" "boom")
  /\ Forall (fun h => ~ In (plan_message ["get_stacktrace"]) h) (llm_calls (snd run)).
Proof.
  cbv zeta. split; [vm_compute; reflexivity|]. split; [vm_compute; reflexivity|].
  apply not_in_calls. vm_compute. reflexivity.
Qed.


Lemma investigate_think_stub_exhausts_witness :
  exists r s',
    investigate JsonLite.json_loads dumps_stub str_stub think_stub quiet_tools
      (mkAgent None 3) "X" "boom" s0 = (Ok r, s')
    /\ iterations r = 3 /\ confidence r = 3 # 10.
Proof.
  assert (Hcb : callback_never_raises (mkAgent None 3)) by (intros cb E; discriminate E).
  assert (Ht : forall h, exists reasoning,
             _parse_llm_response JsonLite.json_loads (think_stub h)
             = Some (PThink reasoning)) by (intros h; eexists; reflexivity).
  destruct (investigate_think_stub_exhausts JsonLite.json_loads dumps_stub str_stub
              think_stub quiet_tools (mkAgent None 3) "X" "boom" s0 Hcb Ht)
    as (r & s' & Hrun & _ & Hit & Hconf & _).
  exists r, s'. split; [exact Hrun | split; [exact Hit | exact Hconf]].
Defined.

Lemma execute_unknown_tool_error_witness :
  in_tool_map "nonexistent_tool" = false
  /\ _execute_tool str_stub quiet_tools (mkAgent None 15) "nonexistent_tool" (JObj []) s0
     = (Ok (JObj [("error", JStr "Unknown tool: nonexistent_tool")]), s0).
Proof.
  split; [reflexivity|].
  exact (proj1 (execute_unknown_tool_error dumps_stub str_stub quiet_tools (mkAgent None 15) "nonexistent_tool"
                  (JObj []) s0 eq_refl (fun cb E => ltac:(discriminate E)))).
Defined.

Lemma execute_tool_contains_exceptions_witness :
  fst (_execute_tool str_stub failing_tools (mkAgent (Some quiet_callback) 15)
         "get_stacktrace" (JObj [("issue_id", JStr "X")]) s0)
  = Ok (JObj [("error", JStr "Sentry API unreachable")]).
Proof.
  assert (Hcb : callback_never_raises (mkAgent (Some quiet_callback) 15)).
  { intros cb E ev. inversion E. reflexivity. }
  exact (proj1 (execute_tool_contains_exceptions str_stub failing_tools (mkAgent (Some quiet_callback) 15)
                  "get_stacktrace" (JObj [("issue_id", JStr "X")]) s0 Hcb)
           [("issue_id", JStr "X")] "Sentry API unreachable" eq_refl eq_refl eq_refl).
Defined.

Lemma execute_tool_success_untruncated_witness :
  exists s'',
    handle_parsed dumps_stub str_stub quiet_tools (mkAgent None 15) 1 []
      (PToolCall (Some "get_sentry_issue_details") (JObj [("issue_id", JStr "X")])) s0
    = (Ok (Continue [OToolResult "get_sentry_issue_details"
                       (JObj [("title", JStr "NullPointer in checkout")])]), s'').
Proof.
  destruct (proj2 (execute_tool_success_untruncated dumps_stub
                     str_stub quiet_tools (mkAgent None 15)
                     "get_sentry_issue_details" [("issue_id", JStr "X")]
                     (JObj [("title", JStr "NullPointer in checkout")]) s0 1 []
                     (fun cb E => ltac:(discriminate E)) eq_refl eq_refl))
    as (s'' & Hrun & _).
  exists s''. exact Hrun.
Defined.

Lemma loop_history_append_only_iterations_bounded_witness :
  exists r, fst (investigate JsonLite.json_loads dumps_stub str_stub think_stub
                   quiet_tools (mkAgent None 4) "X" "boom" s0) = Ok r
            /\ iterations r <= 4.
Proof.
  remember (investigate JsonLite.json_loads dumps_stub str_stub think_stub quiet_tools
              (mkAgent None 4) "X" "boom" s0) as run eqn:E.
  destruct run as [[r|m] s'].
  - exists r. split; [reflexivity|].
    exact (proj2 (loop_history_append_only_iterations_bounded JsonLite.json_loads
                    dumps_stub str_stub think_stub quiet_tools (mkAgent None 4))
             "X" "boom" s0 r s' (eq_sym E)).
  - vm_compute in E. discriminate E.
Defined.



(* ================================================================== *)
(** ** Facts about the tools *)


Import Tools.

(** Case analysis on the innermost pending Python result. *)
Ltac py_cases :=
  repeat match goal with
         | |- context [match ?c with inl _ => _ | inr _ => _ end] =>
             lazymatch c with
             | context [match _ with inl _ => _ | inr _ => _ end] => fail
             | _ => destruct c
             end
         end.

Lemma tag_keys_missing_key pre t post :
  Forall (fun tag => exists kt k, tag = JObj kt /\ dict_lookup "key" kt = Some k) pre ->
  dict_lookup "key" t = None ->
  tag_keys (pre ++ JObj t :: post) = inl "'key'".
Proof.
  intros Hpre Ht. induction Hpre as [|tag pre (kt & k & -> & Hk) _ IH]; cbn.
  - rewrite Ht. reflexivity.
  - rewrite Hk, IH. reflexivity.
Qed.

(** X1: [get_sentry_issue_details] never reports more than five tags: whenever
    its result has a [tags] field, that field is a list of at most five
    items. *)
Theorem issue_details_tags_at_most_five gd issue_id kv v :
  get_sentry_issue_details gd issue_id = JObj kv ->
  dict_lookup "tags" kv = Some v ->
  exists l, v = JArr l /\ length l <= 5.
Proof.
  unfold get_sentry_issue_details. py_cases;
  intros H; injection H as <-; cbn; intros Hv; try discriminate Hv.
  injection Hv as <-. eexists; split; [reflexivity|].
  match goal with
  | ks : list json |- length ?x <= 5 => change x with (firstn 5 ks)
  end.
  apply firstn_le_length.
Qed.

(** X2: A tag without a [key] field makes [get_sentry_issue_details] raise
    [KeyError('key')] (when every earlier tag has one), so the whole result
    is the error dict with message ['key'], even if the first five tags are
    fine. *)
Theorem issue_details_bad_tag_fails gd issue_id kv pre t post :
  gd issue_id = inr (JObj kv) ->
  dict_lookup "tags" kv = Some (JArr (pre ++ JObj t :: post)) ->
  Forall (fun tag => exists kt k, tag = JObj kt /\ dict_lookup "key" kt = Some k) pre ->
  dict_lookup "key" t = None ->
  get_sentry_issue_details gd issue_id
  = JObj [("error", JStr "'key'"); ("issue_id", JStr issue_id)].
Proof.
  intros Hd Htags Hpre Ht. unfold get_sentry_issue_details. rewrite Hd. cbn.
  rewrite Htags. cbn. rewrite (tag_keys_missing_key pre t post Hpre Ht). reflexivity.
Qed.

Lemma py_get_obj kv k d : py_get (JObj kv) k d = inr (dict_get_or kv k d).
Proof. reflexivity. Qed.

Lemma exception_scan_skips pre rest :
  Forall skipped_entry pre -> exception_scan (pre ++ rest) = exception_scan rest.
Proof.
  induction 1 as [|x pre (kv & -> & Hs) _ IH]; [reflexivity|].
  cbn [exception_scan app]. rewrite py_get_obj. cbv beta iota.
  destruct Hs as [Hty | (dk & Hd & Hv)].
  - rewrite Hty. exact IH.
  - destruct (json_is_str "exception" (dict_get_or kv "type" JNull)); [|exact IH].
    rewrite py_get_obj, Hd, py_get_obj, Hv. exact IH.
Qed.

(** X3: [get_stacktrace] reports the first value of the first entry of type
    [exception] whose [values] list is non-empty; entries before it that are
    not exceptions, or exceptions without values, are skipped. *)
Theorem stacktrace_first_exception_with_values ge issue_id kv_ev more pre post
    ke dk x rest :
  ge issue_id 1 = inr (JArr (JObj kv_ev :: more)) ->
  dict_get_or kv_ev "entries" (JArr []) = JArr (pre ++ JObj ke :: post) ->
  Forall skipped_entry pre ->
  dict_get_or ke "type" JNull = JStr "exception" ->
  dict_get_or ke "data" (JObj []) = JObj dk ->
  dict_get_or dk "values" (JArr []) = JArr (JObj x :: rest) ->
  get_stacktrace ge issue_id
  = JObj [("type", dict_get_or x "type" (JStr "Unknown"));
          ("value", dict_get_or x "value" (JStr ""));
          ("stacktrace", dict_get_or x "stacktrace" (JObj []));
          ("mechanism", dict_get_or x "mechanism" (JObj []))].
Proof.
  intros He Hen Hpre Hty Hd Hv. unfold get_stacktrace. rewrite He.
  cbn [truthy negb length Nat.eqb py_index0]. rewrite py_get_obj, Hen.
  cbn [py_iter]. rewrite (exception_scan_skips _ _ Hpre).
  cbn [exception_scan]. rewrite py_get_obj, Hty. cbn [json_is_str].
  rewrite String.eqb_refl, py_get_obj, Hd, py_get_obj, Hv. reflexivity.
Qed.

(** X4: When no entry of the most recent event is an exception with values,
    [get_stacktrace] falls back to the basic event data, with [entries] the
    number of entries of the event. *)
Theorem stacktrace_fallback_counts_entries ge issue_id kv_ev more entries :
  ge issue_id 1 = inr (JArr (JObj kv_ev :: more)) ->
  dict_get_or kv_ev "entries" (JArr []) = JArr entries ->
  Forall skipped_entry entries ->
  get_stacktrace ge issue_id
  = JObj [("event_id", dict_get_or kv_ev "id" JNull);
          ("platform", dict_get_or kv_ev "platform" JNull);
          ("message", dict_get_or kv_ev "message" (JStr ""));
          ("entries", JInt (Z.of_nat (length entries)))].
Proof.
  intros He Hen Hall. unfold get_stacktrace. rewrite He.
  cbn [truthy negb length Nat.eqb py_index0]. rewrite py_get_obj, Hen.
  cbn [py_iter]. rewrite <- (app_nil_r entries) at 1.
  rewrite (exception_scan_skips _ _ Hall). reflexivity.
Qed.

Lemma frequency_fields gd issue_id kv z :
  gd issue_id = inr (JObj kv) ->
  py_int_of (dict_get_or kv "count" (JInt 0)) = inr z ->
  forall trend, frequency_trend (dict_get_or kv "stats" (JObj [])) = inr trend ->
  analyze_error_frequency gd issue_id
  = JObj [("issue_id", JStr issue_id);
          ("total_occurrences", dict_get_or kv "count" (JInt 0));
          ("trend", JStr trend); ("first_seen", dict_get_or kv "firstSeen" JNull);
          ("last_seen", dict_get_or kv "lastSeen" JNull);
          ("frequency", JStr (frequency_label z))].
Proof.
  intros Hd Hz trend Ht. unfold analyze_error_frequency. rewrite Hd, !py_get_obj.
  cbv beta iota. rewrite Ht, Hz. unfold frequency_label.
  destruct (Z.ltb 100 z), (Z.ltb 10 z); reflexivity.
Qed.

Lemma frequency_field_label gd issue_id kv z f :
  gd issue_id = inr (JObj kv) ->
  py_int_of (dict_get_or kv "count" (JInt 0)) = inr z ->
  result_field (analyze_error_frequency gd issue_id) "frequency" = Some (JStr f) ->
  f = frequency_label z.
Proof.
  intros Hd Hz.
  destruct (frequency_trend (dict_get_or kv "stats" (JObj []))) as [e|trend] eqn:Ht.
  - unfold analyze_error_frequency. rewrite Hd, !py_get_obj. cbv beta iota.
    rewrite Ht. cbn. discriminate.
  - rewrite (frequency_fields gd issue_id kv z Hd Hz trend Ht). cbn.
    intros H. injection H as <-. reflexivity.
Qed.

(** X5: The [frequency] label of [analyze_error_frequency] is monotone in the
    issue's count: a count no larger never gives a higher label (low <
    medium < high). *)
Theorem frequency_monotone_in_count gd1 gd2 issue_id kv1 kv2 z1 z2 f1 f2 :
  gd1 issue_id = inr (JObj kv1) ->
  gd2 issue_id = inr (JObj kv2) ->
  py_int_of (dict_get_or kv1 "count" (JInt 0)) = inr z1 ->
  py_int_of (dict_get_or kv2 "count" (JInt 0)) = inr z2 ->
  (z1 <= z2)%Z ->
  result_field (analyze_error_frequency gd1 issue_id) "frequency" = Some (JStr f1) ->
  result_field (analyze_error_frequency gd2 issue_id) "frequency" = Some (JStr f2) ->
  frequency_rank f1 <= frequency_rank f2.
Proof.
  intros H1 H2 Hz1 Hz2 Hle Hf1 Hf2.
  rewrite (frequency_field_label _ _ _ _ _ H1 Hz1 Hf1),
          (frequency_field_label _ _ _ _ _ H2 Hz2 Hf2).
  unfold frequency_label.
  destruct (Z.ltb_spec 100 z1), (Z.ltb_spec 10 z1),
           (Z.ltb_spec 100 z2), (Z.ltb_spec 10 z2);
    cbn; lia.
Qed.

(** X6: When the issue's [count] cannot be read by [int()],
    [analyze_error_frequency] returns its error dict, with trend [unknown]. *)
Theorem frequency_bad_count_is_error gd issue_id kv m :
  gd issue_id = inr (JObj kv) ->
  py_int_of (dict_get_or kv "count" (JInt 0)) = inl m ->
  exists e, analyze_error_frequency gd issue_id
            = JObj [("error", JStr e); ("issue_id", JStr issue_id);
                    ("trend", JStr "unknown")].
Proof.
  intros Hd Hm. unfold analyze_error_frequency. rewrite Hd, !py_get_obj.
  cbv beta iota.
  destruct (frequency_trend (dict_get_or kv "stats" (JObj []))) as [e|trend].
  - exists e. reflexivity.
  - rewrite Hm. exists m. reflexivity.
Qed.

(** X7: For an issue with neither [stats] nor [count], [analyze_error_frequency]
    reports zero occurrences, trend [unknown] and frequency [low]. *)
Theorem frequency_without_stats_or_count gd issue_id kv :
  gd issue_id = inr (JObj kv) ->
  dict_lookup "stats" kv = None ->
  dict_lookup "count" kv = None ->
  analyze_error_frequency gd issue_id
  = JObj [("issue_id", JStr issue_id); ("total_occurrences", JInt 0);
          ("trend", JStr "unknown"); ("first_seen", dict_get_or kv "firstSeen" JNull);
          ("last_seen", dict_get_or kv "lastSeen" JNull); ("frequency", JStr "low")].
Proof.
  intros Hd Hs Hc.
  rewrite (frequency_fields gd issue_id kv 0 Hd) with (trend := "unknown").
  - unfold dict_get_or at 1. rewrite Hc. reflexivity.
  - unfold dict_get_or. rewrite Hc. reflexivity.
  - unfold dict_get_or. rewrite Hs. reflexivity.
Qed.

Lemma trend_field gd issue_id kv z trend :
  gd issue_id = inr (JObj kv) ->
  py_int_of (dict_get_or kv "count" (JInt 0)) = inr z ->
  frequency_trend (dict_get_or kv "stats" (JObj [])) = inr trend ->
  result_field (analyze_error_frequency gd issue_id) "trend" = Some (JStr trend).
Proof.
  intros Hd Hz Ht. rewrite (frequency_fields gd issue_id kv z Hd Hz trend Ht).
  reflexivity.
Qed.

Lemma trend_field_error gd issue_id kv e :
  gd issue_id = inr (JObj kv) ->
  frequency_trend (dict_get_or kv "stats" (JObj [])) = inl e ->
  result_field (analyze_error_frequency gd issue_id) "trend" = Some (JStr "unknown").
Proof.
  intros Hd Ht. unfold analyze_error_frequency. rewrite Hd, !py_get_obj.
  cbv beta iota. rewrite Ht. reflexivity.
Qed.

Lemma truediv_overflows_mul (m c : Z) :
  (0 < m)%Z -> truediv_overflows (m * c) m = Z.leb float_overflow_bound (Z.abs c).
Proof.
  intros Hm. unfold truediv_overflows. rewrite Z.abs_mul, (Z.abs_eq m) by lia.
  assert (Hb : (0 < float_overflow_bound)%Z) by (vm_compute; reflexivity).
  destruct (Z.leb_spec (float_overflow_bound * m) (m * Z.abs c)),
           (Z.leb_spec float_overflow_bound (Z.abs c)); try reflexivity; nia.
Qed.


Lemma second_items_const (c : Z) (l : list json) :
  second_items (map (fun t => JArr [t; JInt c]) l) = inr (repeat (JInt c) (length l)).
Proof. induction l as [|t l IH]; cbn; [reflexivity|]. rewrite IH. reflexivity. Qed.

Lemma py_sum_repeat (c acc : Z) (m : nat) :
  py_sum (repeat (JInt c) m) acc = inr (acc + Z.of_nat m * c)%Z.
Proof.
  revert acc. induction m as [|m IH]; intros acc; cbn [repeat py_sum as_int].
  - f_equal. lia.
  - rewrite IH. f_equal. lia.
Qed.

Lemma pos_of_nat_Z (m : nat) : m <> 0 -> Zpos (Pos.of_nat m) = Z.of_nat m.
Proof. intros H. rewrite <- positive_nat_Z, Nat2Pos.id by exact H. reflexivity. Qed.

Lemma py_avg_repeat (c : Z) (m : nat) :
  m <> 0 ->
  py_avg (repeat (JInt c) m)
  = if Z.leb float_overflow_bound (Z.abs c) then inl overflow_message
    else inr (Qmake (Z.of_nat m * c) (Pos.of_nat m)).
Proof.
  intros Hm. destruct m as [|m']; [contradiction|].
  unfold py_avg. cbn [repeat].
  change (JInt c :: repeat (JInt c) m') with (repeat (JInt c) (S m')).
  rewrite py_sum_repeat, repeat_length, Z.add_0_l, truediv_overflows_mul by lia.
  reflexivity.
Qed.

(** X9: A 24h series of at least two buckets that all hold the same
    non-negative count [c] gives the trend [stable], or [unknown] when
    [c] is too large for a float and the averages overflow. *)
Theorem frequency_constant_traffic_stable gd issue_id kv skv ts c z :
  gd issue_id = inr (JObj kv) ->
  py_int_of (dict_get_or kv "count" (JInt 0)) = inr z ->
  dict_get_or kv "stats" (JObj []) = JObj skv ->
  dict_lookup "24h" skv = Some (JArr (map (fun t => JArr [t; JInt c]) ts)) ->
  2 <= length ts -> (0 <= c)%Z ->
  result_field (analyze_error_frequency gd issue_id) "trend"
  = Some (JStr (if Z.leb float_overflow_bound c then "unknown" else "stable")).
Proof.
  intros Hd Hz Hs H24 Hlen Hc.
  set (m1 := Nat.div (length ts) 2).
  assert (H1 : 1 <= m1) by (apply Nat.div_le_lower_bound; lia).
  assert (H2 : 2 * m1 <= length ts) by (apply Nat.Div0.mul_div_le; lia).
  set (m2 := length ts - m1).
  assert (Hm2 : 1 <= m2) by lia.
  assert (Ht : frequency_trend (dict_get_or kv "stats" (JObj []))
               = if Z.leb float_overflow_bound c then inl overflow_message
                 else inr (trend_of (Qmake (Z.of_nat m1 * c) (Pos.of_nat m1))
                                    (Qmake (Z.of_nat m2 * c) (Pos.of_nat m2)))).
  { rewrite Hs. unfold frequency_trend. cbn [py_in]. rewrite H24.
    cbn [py_getitem_str]. rewrite H24. unfold py_halves. cbn [py_len py_iter].
    rewrite length_map, firstn_map, skipn_map. cbv beta iota. cbn [fst snd].
    rewrite !second_items_const. cbv beta iota.
    rewrite firstn_length_le, length_skipn by lia. fold m1 m2.
    rewrite !py_avg_repeat by lia. rewrite (Z.abs_eq c) by exact Hc.
    destruct (Z.leb float_overflow_bound c); reflexivity. }
  destruct (Z.leb float_overflow_bound c).
  - exact (trend_field_error gd issue_id kv _ Hd Ht).
  - apply (trend_field gd issue_id kv z _ Hd Hz). rewrite Ht.
    unfold trend_of, Qle_bool. cbn [Qnum Qden Qmult].
    rewrite !Pos2Z.inj_mul, !pos_of_nat_Z by lia.
    replace (Z.leb _ _) with true by (symmetry; apply Z.leb_le; nia).
    replace (Z.leb _ _) with true by (symmetry; apply Z.leb_le; nia).
    reflexivity.
Qed.

Lemma user_impact_int_fields gd issue_id kv u t :
  gd issue_id = inr (JObj kv) ->
  dict_get_or kv "userCount" (JInt 0) = JInt u ->
  dict_get_or kv "count" (JInt 0) = JInt t ->
  get_user_impact gd issue_id
  = if Z.ltb 0 u && truediv_overflows t u then
      [("error", PJson (JStr overflow_message)); ("issue_id", PJson (JStr issue_id));
       ("affected_users", PJson (JInt 0)); ("impact_level", PJson (JStr "unknown"))]
    else
      [("issue_id", PJson (JStr issue_id)); ("affected_users", PJson (JInt u));
       ("total_occurrences", PJson (JInt t));
       ("impact_level", PJson (JStr (impact_label u)));
       ("avg_per_user", if Z.ltb 0 u then PRoundDiv t u 2 else PJson (JInt 0))].
Proof.
  intros Hd Hu Ht. unfold get_user_impact. rewrite Hd, !py_get_obj, Hu, Ht.
  cbn [py_gt_int as_int]. unfold impact_label, py_truediv. cbn [as_int].
  destruct (Z.ltb_spec 0 u) as [Hpos|Hpos].
  - replace (Z.eqb u 0) with false by (symmetry; apply Z.eqb_neq; lia).
    destruct (truediv_overflows t u);
      destruct (Z.ltb 1000 u), (Z.ltb 100 u), (Z.ltb 10 u); reflexivity.
  - destruct (Z.ltb 1000 u), (Z.ltb 100 u), (Z.ltb 10 u); reflexivity.
Qed.

(** X10: With integer user and event counts, and an event count per user
    that does not overflow a float, the [impact_level] of [get_user_impact]
    is monotone in the number of affected users (low < medium < high <
    critical). *)
Theorem user_impact_monotone gd1 gd2 issue_id kv1 kv2 u1 u2 t1 t2 l1 l2 :
  gd1 issue_id = inr (JObj kv1) ->
  gd2 issue_id = inr (JObj kv2) ->
  dict_get_or kv1 "userCount" (JInt 0) = JInt u1 ->
  dict_get_or kv2 "userCount" (JInt 0) = JInt u2 ->
  dict_get_or kv1 "count" (JInt 0) = JInt t1 ->
  dict_get_or kv2 "count" (JInt 0) = JInt t2 ->
  ((0 < u1)%Z -> truediv_overflows t1 u1 = false) ->
  ((0 < u2)%Z -> truediv_overflows t2 u2 = false) ->
  (u1 <= u2)%Z ->
  pv_field "impact_level" (get_user_impact gd1 issue_id) = Some (PJson (JStr l1)) ->
  pv_field "impact_level" (get_user_impact gd2 issue_id) = Some (PJson (JStr l2)) ->
  impact_rank l1 <= impact_rank l2.
Proof.
  intros H1 H2 Hu1 Hu2 Ht1 Ht2 Ho1 Ho2 Hle.
  rewrite (user_impact_int_fields _ _ _ _ _ H1 Hu1 Ht1),
          (user_impact_int_fields _ _ _ _ _ H2 Hu2 Ht2).
  replace (Z.ltb 0 u1 && truediv_overflows t1 u1) with false
    by (destruct (Z.ltb_spec 0 u1); [rewrite Ho1 by lia|]; reflexivity).
  replace (Z.ltb 0 u2 && truediv_overflows t2 u2) with false
    by (destruct (Z.ltb_spec 0 u2); [rewrite Ho2 by lia|]; reflexivity).
  cbn. intros E1 E2. injection E1 as <-. injection E2 as <-.
  unfold impact_label.
  destruct (Z.ltb_spec 1000 u1), (Z.ltb_spec 100 u1), (Z.ltb_spec 10 u1),
           (Z.ltb_spec 1000 u2), (Z.ltb_spec 100 u2), (Z.ltb_spec 10 u2);
    cbn; lia.
Qed.

(** X11: When the issue has users and its [count] is a string,
    [round(total_count / user_count, 2)] raises a [TypeError] and
    [get_user_impact] returns its error dict with [affected_users] 0 and
    [impact_level] [unknown]. *)
Theorem user_impact_string_count_fails gd issue_id kv u s :
  gd issue_id = inr (JObj kv) ->
  dict_get_or kv "userCount" (JInt 0) = JInt u ->
  (0 < u)%Z ->
  dict_get_or kv "count" (JInt 0) = JStr s ->
  get_user_impact gd issue_id
  = [("error", PJson (JStr "unsupported operand type(s) for /: 'str' and 'int'"));
     ("issue_id", PJson (JStr issue_id)); ("affected_users", PJson (JInt 0));
     ("impact_level", PJson (JStr "unknown"))].
Proof.
  intros Hd Hu Hpos Hs. unfold get_user_impact. rewrite Hd, !py_get_obj, Hu, Hs.
  cbn [py_gt_int as_int].
  replace (Z.ltb 0 u) with true by (symmetry; apply Z.ltb_lt; lia).
  destruct (Z.ltb 1000 u), (Z.ltb 100 u), (Z.ltb 10 u); reflexivity.
Qed.

(** X12: An issue with no users ([userCount] <= 0) gets impact level [low] and
    [avg_per_user] 0, whatever its [count]. *)
Theorem user_impact_no_users_low gd issue_id kv u :
  gd issue_id = inr (JObj kv) ->
  dict_get_or kv "userCount" (JInt 0) = JInt u ->
  (u <= 0)%Z ->
  get_user_impact gd issue_id
  = [("issue_id", PJson (JStr issue_id)); ("affected_users", PJson (JInt u));
     ("total_occurrences", PJson (dict_get_or kv "count" (JInt 0)));
     ("impact_level", PJson (JStr "low")); ("avg_per_user", PJson (JInt 0))].
Proof.
  intros Hd Hu Hle. unfold get_user_impact. rewrite Hd, !py_get_obj, Hu.
  cbn [py_gt_int as_int].
  replace (Z.ltb 1000 u) with false by (symmetry; apply Z.ltb_ge; lia).
  replace (Z.ltb 100 u) with false by (symmetry; apply Z.ltb_ge; lia).
  replace (Z.ltb 10 u) with false by (symmetry; apply Z.ltb_ge; lia).
  replace (Z.ltb 0 u) with false by (symmetry; apply Z.ltb_ge; lia).
  reflexivity.
Qed.


(* ================================================================== *)
(** ** Facts about [Think] runs of [investigate] *)


Section Loop2.

Variable json_loads : string -> option json.
Variable json_dumps : json -> string.
Variable py_str : json -> string.
Variable llm : list message -> string.
Variable tool_impl : string -> list (string * json) -> string + json.

Lemma react_loop_think_step self f i obs s :
  callback_never_raises self ->
  react_loop json_loads json_dumps py_str llm tool_impl self (S f) i obs s
  = react_loop json_loads json_dumps py_str llm tool_impl self f (S i)
      (obs ++ [OThought (llm (conversation_history s))])
      (think_step_state llm self (S i) s).
Proof.
  intros Hcb. cbn [react_loop]. unfold bind at 1. rewrite emit_ok by exact Hcb.
  cbn - [_parse_llm_response handle_parsed].
  rewrite parse_llm_response_fallback. unfold handle_parsed, bind.
  rewrite emit_ok by exact Hcb. cbn - [react_loop].
  unfold think_step_state, think_step_messages, think_step_events, after_emit,
    set_history, log_llm, log_event.
  destruct (stream_callback self); cbn - [react_loop];
  destruct (Nat.leb (max_iterations self - 1) (S i)); cbn - [react_loop];
  unfold set_history; cbn - [react_loop];
  rewrite <- ?app_assoc, ?app_nil_r; reflexivity.
Qed.

Lemma react_loop_think_run self f i obs s :
  callback_never_raises self ->
  exists obs',
    react_loop json_loads json_dumps py_str llm tool_impl self f i obs s
    = (Ok (i + f, obs', None), think_run llm self f i s).
Proof.
  intros Hcb. revert i obs s. induction f as [|f IH]; intros i obs s.
  - exists obs. rewrite Nat.add_0_r. reflexivity.
  - rewrite react_loop_think_step by exact Hcb.
    destruct (IH (S i) (obs ++ [OThought (llm (conversation_history s))])
                (think_step_state llm self (S i) s)) as (obs' & ->).
    exists obs'. rewrite <- plus_n_Sm. reflexivity.
Qed.

Lemma think_run_add self a b i s :
  think_run llm self (a + b) i s = think_run llm self b (i + a) (think_run llm self a i s).
Proof.
  revert i s. induction a as [|a IH]; intros i s; cbn.
  - rewrite Nat.add_0_r. reflexivity.
  - rewrite IH. rewrite <- plus_n_Sm. reflexivity.
Qed.

(** Iterations before [max_iterations - 1] append only the reply. *)
Lemma think_run_quiet self f i s :
  i + f <= max_iterations self - 2 ->
  exists rs, length rs = f
    /\ conversation_history (think_run llm self f i s)
       = conversation_history s ++ map AIMessage rs
    /\ llm_calls (think_run llm self f i s)
       = llm_calls s ++ map (fun k => conversation_history s ++ map AIMessage (firstn k rs))
                            (seq 0 f).
Proof.
  revert i s. induction f as [|f IH]; intros i s Hle.
  - exists []. cbn. rewrite !app_nil_r. auto.
  - cbn [think_run].
    destruct (IH (S i) (think_step_state llm self (S i) s)) as (rs & Hlen & Hh & Hc);
      [lia|].
    assert (Hq : Nat.leb (max_iterations self - 1) (S i) = false)
      by (apply Nat.leb_gt; lia).
    exists (llm (conversation_history s) :: rs). split; [cbn; lia|].
    assert (H1 : conversation_history (think_step_state llm self (S i) s)
                 = conversation_history s ++ [AIMessage (llm (conversation_history s))])
      by (unfold think_step_state, think_step_messages; rewrite Hq; reflexivity).
    assert (H2 : llm_calls (think_step_state llm self (S i) s)
                 = llm_calls s ++ [conversation_history s]) by reflexivity.
    rewrite H1 in Hh, Hc. rewrite H2 in Hc.
    split.
    + rewrite Hh, <- app_assoc. reflexivity.
    + rewrite Hc, <- app_assoc. cbn [seq map firstn app]. f_equal. f_equal.
      * rewrite app_nil_r. reflexivity.
      * rewrite <- seq_shift, map_map. apply map_ext. intros k.
        cbn [firstn map]. rewrite <- app_assoc. reflexivity.
Qed.

(** The state after the start event and the history reset of
    [investigate], and after the final [complete] callback. *)
Lemma investigate_think_run self issue_id error_message s :
  callback_never_raises self ->
  let s1 := set_history (initial_history issue_id error_message)
              (after_emit self "start"
                 (JObj [("issue_id", JStr issue_id); ("error_message", JStr error_message);
                        ("mode", JStr "autonomous")]) s) in
  exists r s',
    investigate json_loads json_dumps py_str llm tool_impl self issue_id error_message s
    = (Ok r, s')
    /\ conversation_history s' = conversation_history (think_run llm self (max_iterations self) 0 s1)
    /\ llm_calls s' = llm_calls (think_run llm self (max_iterations self) 0 s1)
    /\ events s' = events (think_run llm self (max_iterations self) 0 s1)
                   ++ match stream_callback self with
                      | Some _ => [EvComplete issue_id error_message r "success"]
                      | None => []
                      end.
Proof.
  intros Hcb s1. unfold investigate, bind at 1. rewrite emit_ok by exact Hcb.
  cbn - [react_loop].
  destruct (react_loop_think_run self (max_iterations self) 0 [] s1 Hcb) as (obs' & Hrun).
  unfold s1 in Hrun. unfold bind at 1. rewrite Hrun. cbn - [think_run].
  destruct (stream_callback self) as [cb|] eqn:E.
  - unfold call_callback. rewrite (Hcb cb E). cbn - [think_run].
    eexists _, _. split; [reflexivity|]. cbn. auto.
  - cbn - [think_run]. eexists _, _. split; [reflexivity|]. rewrite app_nil_r. auto.
Qed.

Lemma think_run_events self cb f i s :
  stream_callback self = Some cb ->
  exists steps,
    events (think_run llm self f i s) = events s ++ steps
    /\ length steps = 2 * f
    /\ Forall (fun e => exists t d, e = EvStep t d) steps.
Proof.
  intros E. revert i s. induction f as [|f IH]; intros i s.
  - exists []. cbn. rewrite app_nil_r. auto.
  - cbn [think_run].
    destruct (IH (S i) (think_step_state llm self (S i) s)) as (steps & Hev & Hlen & Hall).
    assert (He : events (think_step_state llm self (S i) s)
                 = events s ++ think_step_events self (S i) (llm (conversation_history s)))
      by reflexivity.
    unfold think_step_events in He. rewrite E in He.
    rewrite He, <- app_assoc in Hev.
    eexists. split; [exact Hev|]. split.
    + cbn. lia.
    + repeat constructor; eauto.
Qed.

(** X13: In a run of [investigate] where the model only thinks, the nudge message
    is appended after the last two iterations, but only the first copy is
    ever sent to the model: the last model call sees one nudge and no call
    sees the second. *)
Theorem investigate_nudge_reaches_model_once self issue_id error_message s :
  callback_never_raises self ->
  2 <= max_iterations self ->
  exists r s' rs rN,
    investigate json_loads json_dumps py_str llm tool_impl self issue_id error_message s
    = (Ok r, s')
    /\ length rs = max_iterations self - 1
    /\ conversation_history s'
       = initial_history issue_id error_message ++ map AIMessage rs
         ++ [HumanMessage Prompts.max_iterations_nudge; AIMessage rN;
             HumanMessage Prompts.max_iterations_nudge]
    /\ llm_calls s'
       = llm_calls s
         ++ map (fun k => initial_history issue_id error_message ++ map AIMessage (firstn k rs))
                (seq 0 (max_iterations self - 1))
         ++ [initial_history issue_id error_message ++ map AIMessage rs
             ++ [HumanMessage Prompts.max_iterations_nudge]].
Proof.
  intros Hcb H2.
  destruct (investigate_think_run self issue_id error_message s Hcb)
    as (r & s' & Hrun & Hh & Hc & _).
  set (s1 := set_history (initial_history issue_id error_message) _) in Hh, Hc.
  set (N := max_iterations self) in *.
  replace N with ((N - 2) + 2) in Hh, Hc at 1 by lia.
  rewrite think_run_add in Hh, Hc.
  destruct (think_run_quiet self (N - 2) 0 s1) as (rs0 & Hlen & Hh0 & Hc0); [lia|].
  set (s2 := think_run llm self (N - 2) 0 s1) in *.
  cbn [think_run Nat.add] in Hh, Hc.
  set (r1 := llm (conversation_history s2)).
  set (s3 := think_step_state llm self (S (N - 2)) s2) in Hh, Hc.
  assert (Hq1 : Nat.leb (N - 1) (S (N - 2)) = true) by (apply Nat.leb_le; lia).
  assert (Hq2 : Nat.leb (N - 1) (S (S (N - 2))) = true) by (apply Nat.leb_le; lia).
  assert (Hh3 : conversation_history s3
                = conversation_history s2
                  ++ [AIMessage r1; HumanMessage Prompts.max_iterations_nudge]).
  { unfold s3, think_step_state, think_step_messages. fold N. rewrite Hq1. reflexivity. }
  assert (Hs1h : conversation_history s1 = initial_history issue_id error_message)
    by reflexivity.
  assert (Hs1c : llm_calls s1 = llm_calls s)
    by (unfold s1; cbn; apply after_emit_llm).
  exists r, s', (rs0 ++ [r1]), (llm (conversation_history s3)).
  split; [exact Hrun|]. split; [rewrite length_app; cbn; lia|].
  split.
  - rewrite Hh. unfold think_step_state at 1, think_step_messages. fold N. rewrite Hq2.
    cbn [conversation_history]. rewrite Hh3, Hh0, Hs1h.
    rewrite map_app. rewrite <- !app_assoc. reflexivity.
  - rewrite Hc. unfold think_step_state at 1. cbn [llm_calls].
    assert (Hc3 : llm_calls s3 = llm_calls s2 ++ [conversation_history s2]) by reflexivity.
    rewrite Hc3, Hc0, Hh3, Hh0, Hs1h, Hs1c.
    replace (N - 1) with (N - 2 + 1) by lia.
    rewrite seq_app, map_app. cbn [seq map Nat.add].
    rewrite <- !app_assoc. f_equal.
    assert (Hpre : map (fun k => initial_history issue_id error_message
                                 ++ map AIMessage (firstn k (rs0 ++ [r1])))
                       (seq 0 (N - 2))
                   = map (fun k => initial_history issue_id error_message
                                   ++ map AIMessage (firstn k rs0))
                         (seq 0 (N - 2))).
    { apply map_ext_in. intros k Hk. apply in_seq in Hk.
      rewrite firstn_app. replace (k - length rs0) with 0 by lia. cbn.
      rewrite app_nil_r. reflexivity. }
    rewrite Hpre. f_equal.
    rewrite firstn_app. replace (N - 2 - length rs0) with 0 by lia.
    rewrite <- Hlen, firstn_all. cbn. rewrite app_nil_r, !map_app, <- !app_assoc.
    reflexivity.
Qed.

(** X14: With a stream callback that never fails, a run of [investigate] where
    the model only thinks emits a [start] event, then exactly two step
    events per iteration, then a single [complete] event with status
    [success]. *)
Theorem investigate_event_stream self cb issue_id error_message s :
  stream_callback self = Some cb ->
  (forall ev, cb ev = None) ->
  exists r s' steps,
    investigate json_loads json_dumps py_str llm tool_impl self issue_id error_message s
    = (Ok r, s')
    /\ events s'
       = events s
         ++ [EvStep "start" (JObj [("issue_id", JStr issue_id);
                                   ("error_message", JStr error_message);
                                   ("mode", JStr "autonomous")])]
         ++ steps ++ [EvComplete issue_id error_message r "success"]
    /\ length steps = 2 * max_iterations self
    /\ Forall (fun e => exists t d, e = EvStep t d) steps.
Proof.
  intros E Hcb0.
  assert (Hcb : callback_never_raises self)
    by (intros cb' E' ev; rewrite E in E'; injection E' as <-; apply Hcb0).
  destruct (investigate_think_run self issue_id error_message s Hcb)
    as (r & s' & Hrun & _ & _ & Hev).
  set (s1 := set_history (initial_history issue_id error_message) _) in Hev.
  destruct (think_run_events self cb (max_iterations self) 0 s1 E)
    as (steps & Hst & Hlen & Hall).
  exists r, s', steps. split; [exact Hrun|]. split; [|auto].
  rewrite Hev, Hst, E. unfold s1, after_emit. rewrite E. cbn.
  rewrite <- !app_assoc. reflexivity.
Qed.

End Loop2.


(* ================================================================== *)
(** ** Facts about plans, previews and the parser branches *)


Lemma length_app_str (a b : string) : String.length (a ++ b)%string = String.length a + String.length b.
Proof. induction a as [|c a IH]; cbn; [reflexivity|]. rewrite IH. reflexivity. Qed.

Lemma append_assoc_str (a b c : string) : ((a ++ b) ++ c = a ++ (b ++ c))%string.
Proof. induction a as [|x a IH]; cbn; [reflexivity|]. rewrite IH. reflexivity. Qed.

Lemma append_nil_str (a : string) : (a ++ "")%string = a.
Proof. induction a as [|x a IH]; cbn; [reflexivity|]. rewrite IH. reflexivity. Qed.

Lemma prefix_char_cons (c d : ascii) (r : string) :
  String.prefix (String c EmptyString) (String d r) = Ascii.eqb c d.
Proof.
  cbn. destruct (ascii_dec c d) as [->|Hne].
  - rewrite Ascii.eqb_refl. destruct r; reflexivity.
  - symmetry. apply Ascii.eqb_neq. exact Hne.
Qed.

Lemma index_char_app (c : ascii) (a b : string) :
  has_char c a = false ->
  String.index 0 (String c EmptyString) (a ++ String c b)%string = Some (String.length a).
Proof.
  induction a as [|d a IH]; intros H.
  - cbn [append]. unfold String.index. rewrite prefix_char_cons, Ascii.eqb_refl. reflexivity.
  - cbn [has_char] in H. apply orb_false_iff in H as [Hd Ha].
    cbn [append String.length]. unfold String.index; fold String.index.
    rewrite prefix_char_cons, Hd, (IH Ha). reflexivity.
Qed.

Lemma index_char_none (c : ascii) (a : string) :
  has_char c a = false -> String.index 0 (String c EmptyString) a = None.
Proof.
  induction a as [|d a IH]; intros H; [reflexivity|].
  cbn [has_char] in H. apply orb_false_iff in H as [Hd Ha].
  unfold String.index; fold String.index. rewrite prefix_char_cons, Hd, (IH Ha).
  reflexivity.
Qed.

Lemma substring_prefix (a b : string) : substring 0 (String.length a) (a ++ b)%string = a.
Proof. induction a as [|c a IH]; cbn; [destruct b; reflexivity|]. rewrite IH. reflexivity. Qed.

Lemma substring_all (s : string) m : String.length s <= m -> substring 0 m s = s.
Proof.
  revert m. induction s as [|c s IH]; intros m Hm; destruct m; cbn in *; try reflexivity; try lia.
  rewrite IH by lia. reflexivity.
Qed.

Lemma substring_suffix (a b : string) m :
  String.length b <= m -> substring (String.length a) m (a ++ b)%string = b.
Proof.
  induction a as [|c a IH]; intros Hm; cbn.
  - apply substring_all. exact Hm.
  - apply IH. exact Hm.
Qed.

Lemma split_fuel_char_none (c : ascii) f (a : string) :
  has_char c a = false -> split_fuel f (String c EmptyString) a = [a].
Proof. intros H. destruct f; cbn; [reflexivity|]. rewrite index_char_none by exact H. reflexivity. Qed.

Lemma split_fuel_char_app (c : ascii) f (a b : string) :
  has_char c a = false ->
  split_fuel (S f) (String c EmptyString) (a ++ String c b)%string
  = a :: split_fuel f (String c EmptyString) b.
Proof.
  intros H. cbn [split_fuel]. rewrite index_char_app by exact H.
  rewrite substring_prefix. f_equal. f_equal.
  cbn [String.length]. rewrite length_app_str. cbn [String.length].
  replace (String.length a + 1 + 0) with (String.length a + 1) by lia.
  replace (String.length a + 1) with (String.length (a ++ String c EmptyString)%string)
    by (rewrite length_app_str; reflexivity).
  replace (a ++ String c b)%string with ((a ++ String c EmptyString) ++ b)%string
    by (rewrite append_assoc_str; reflexivity).
  apply substring_suffix. lia.
Qed.

Lemma rev_str_app (a b : string) : rev_str (a ++ b)%string = (rev_str b ++ rev_str a)%string.
Proof.
  induction a as [|c a IH]; cbn.
  - rewrite append_nil_str. reflexivity.
  - rewrite IH, append_assoc_str. reflexivity.
Qed.

Lemma rev_str_involutive (s : string) : rev_str (rev_str s) = s.
Proof. induction s as [|c s IH]; cbn; [reflexivity|]. rewrite rev_str_app, IH. reflexivity. Qed.

Lemma lstrip_first_nonws (s : string) : first_nonws s = true -> lstrip_by is_ws s = s.
Proof. destruct s as [|c r]; cbn; [discriminate|]. destruct (is_ws c); cbn; congruence. Qed.

Lemma first_nonws_app_l (a b : string) : first_nonws a = true -> first_nonws (a ++ b)%string = true.
Proof. destruct a; cbn; [discriminate|auto]. Qed.

Lemma last_nonws_app_r (a b : string) : last_nonws b = true -> last_nonws (a ++ b)%string = true.
Proof. unfold last_nonws. rewrite rev_str_app. apply first_nonws_app_l. Qed.

Lemma strip_id (s : string) : first_nonws s = true -> last_nonws s = true -> strip s = s.
Proof.
  intros Hf Hl. unfold strip, strip_by. rewrite (lstrip_first_nonws s Hf).
  rewrite (lstrip_first_nonws (rev_str s) Hl). apply rev_str_involutive.
Qed.

Lemma strip_trailing_space (x : string) :
  first_nonws x = true -> last_nonws x = true -> strip (x ++ " ")%string = x.
Proof.
  intros Hf Hl. unfold strip, strip_by.
  rewrite (lstrip_first_nonws _ (first_nonws_app_l _ _ Hf)).
  rewrite rev_str_app. cbn [rev_str append lstrip_by].
  replace (is_ws " "%char) with true by reflexivity.
  rewrite (lstrip_first_nonws (rev_str x) Hl). apply rev_str_involutive.
Qed.

Lemma strip_leading_space (x : string) :
  first_nonws x = true -> last_nonws x = true -> strip (" " ++ x)%string = x.
Proof.
  intros Hf Hl. unfold strip, strip_by. cbn [append lstrip_by].
  replace (is_ws " "%char) with true by reflexivity.
  rewrite (lstrip_first_nonws x Hf), (lstrip_first_nonws (rev_str x) Hl).
  apply rev_str_involutive.
Qed.

Lemma has_char_app (c : ascii) (a b : string) :
  has_char c (a ++ b)%string = has_char c a || has_char c b.
Proof. induction a as [|d a IH]; cbn; [reflexivity|]. rewrite IH, orb_assoc. reflexivity. Qed.

Lemma digit_not_char (c x : ascii) :
  is_digit c = true -> Nat.ltb (nat_of_ascii x) 48 = true -> Ascii.eqb x c = false.
Proof.
  intros Hd Hx. apply Ascii.eqb_neq. intros ->. unfold is_digit in Hd.
  apply andb_true_iff in Hd as [H1 _]. apply Nat.leb_le in H1. apply Nat.ltb_lt in Hx. lia.
Qed.

Lemma digits_no_char (x : ascii) (d : string) :
  all_chars is_digit d = true -> Nat.ltb (nat_of_ascii x) 48 = true -> has_char x d = false.
Proof.
  intros Hd Hx. induction d as [|c d IH]; [reflexivity|].
  cbn in Hd |- *. apply andb_true_iff in Hd as [Hc Hd].
  rewrite (digit_not_char c x Hc Hx). apply IH. exact Hd.
Qed.

Lemma digit_not_ws (c : ascii) : is_digit c = true -> is_ws c = false.
Proof.
  unfold is_digit, is_ws. intros Hd. apply andb_true_iff in Hd as [H1 H2].
  apply Nat.leb_le in H1. apply Nat.leb_le in H2.
  destruct (Nat.leb_spec 9 (nat_of_ascii c)), (Nat.leb_spec (nat_of_ascii c) 13),
           (Nat.leb_spec 28 (nat_of_ascii c)), (Nat.leb_spec (nat_of_ascii c) 32);
    cbn; reflexivity || lia.
Qed.

Lemma plan_step_line (d name why : string) :
  plan_item_ok (d, name, why) = true -> plan_step (plan_line (d, name, why)) = [name].
Proof.
  intros Hok. cbn [plan_item_ok] in Hok.
  apply andb_true_iff in Hok as [Hok Hwnl]. apply negb_true_iff in Hwnl.
  apply andb_true_iff in Hok as [Hok Hwl].
  apply andb_true_iff in Hok as [Hok Hnnl]. apply negb_true_iff in Hnnl.
  apply andb_true_iff in Hok as [Hok Hdash]. apply negb_true_iff in Hdash.
  apply andb_true_iff in Hok as [Hok Hdot]. apply negb_true_iff in Hdot.
  apply andb_true_iff in Hok as [Hok Hnl].
  apply andb_true_iff in Hok as [Hok Hnf].
  apply andb_true_iff in Hok as [Hdf Hd].
  destruct d as [|c0 d']; [discriminate Hdf|].
  assert (Hc0 : is_digit c0 = true) by (cbn in Hd; apply andb_true_iff in Hd; tauto).
  unfold plan_step, plan_line.
  (* the line is kept: it starts with a digit and is not blank *)
  set (line := (String c0 d' ++ ". " ++ name ++ " - " ++ why)%string).
  assert (Hline_f : first_nonws line = true) by exact Hdf.
  assert (Hline_l : last_nonws line = true).
  { unfold line. apply last_nonws_app_r, last_nonws_app_r, last_nonws_app_r,
      last_nonws_app_r. exact Hwl. }
  rewrite (strip_id line Hline_f Hline_l).
  replace (match line with String c _ => is_digit c | EmptyString => false end) with true
    by (symmetry; exact Hc0).
  replace (String.eqb line "") with false by reflexivity. cbn [negb andb].
  (* [line.split('-')[0]] *)
  set (head := (String c0 d' ++ ". " ++ name)%string).
  assert (Hsplit : line = ((head ++ " ") ++ String "-" (" " ++ why))%string)
    by (unfold line, head; rewrite !append_assoc_str; reflexivity).
  assert (Hnodash : has_char "-" (head ++ " ")%string = false).
  { unfold head. rewrite !has_char_app, (digits_no_char "-" _ Hd eq_refl), Hdash.
    reflexivity. }
  assert (E1 : nth_str 0 (split "-" line) = (head ++ " ")%string).
  { unfold split. rewrite Hsplit at 2. rewrite (split_fuel_char_app _ _ _ _ Hnodash).
    reflexivity. }
  rewrite E1.
  assert (Hhead_f : first_nonws head = true) by exact Hdf.
  assert (Hhead_l : last_nonws head = true)
    by (unfold head; apply last_nonws_app_r, last_nonws_app_r; exact Hnl).
  rewrite (strip_trailing_space head Hhead_f Hhead_l).
  (* [tool_part.split('.')[1].strip()] *)
  assert (Hd_nodot : has_char "." (String c0 d') = false)
    by exact (digits_no_char "." _ Hd eq_refl).
  assert (Hhead : head = (String c0 d' ++ String "." (" " ++ name))%string) by reflexivity.
  assert (Hcontains : contains "." head = true).
  { unfold contains. rewrite Hhead. rewrite (index_char_app _ _ _ Hd_nodot). reflexivity. }
  rewrite Hcontains.
  assert (E2 : split "." head = [String c0 d'; (" " ++ name)%string]).
  { unfold split. rewrite Hhead at 2. rewrite (split_fuel_char_app _ _ _ _ Hd_nodot).
    rewrite split_fuel_char_none by (cbn; exact Hdot). reflexivity. }
  rewrite E2. unfold nth_str. cbn [nth]. rewrite (strip_leading_space name Hnf Hnl).
  reflexivity.
Qed.

Lemma concat_nl_cons2 (x y : string) (r : list string) :
  String.concat nl (x :: y :: r) = (x ++ String (ascii_of_nat 10) (String.concat nl (y :: r)))%string.
Proof. reflexivity. Qed.

Lemma split_fuel_concat_nl (lines : list string) f :
  lines <> [] ->
  Forall (fun l => has_char (ascii_of_nat 10) l = false) lines ->
  length lines <= f ->
  split_fuel f nl (String.concat nl lines) = lines.
Proof.
  intros Hne Hall. revert f. induction Hall as [|x r Hx Hr IH]; intros f Hf;
    [contradiction|].
  destruct r as [|y r].
  - cbn [String.concat]. unfold nl. apply split_fuel_char_none. exact Hx.
  - rewrite concat_nl_cons2. destruct f as [|f]; [cbn in Hf; lia|].
    unfold nl at 1. rewrite (split_fuel_char_app _ _ _ _ Hx). f_equal.
    apply IH; [discriminate|]. cbn in Hf |- *. lia.
Qed.

Lemma concat_nl_length (lines : list string) :
  length lines <= S (String.length (String.concat nl lines)).
Proof.
  induction lines as [|x r IH]; [cbn; lia|].
  destruct r as [|y r]; [cbn [length]; lia|].
  rewrite concat_nl_cons2, length_app_str. cbn [String.length].
  cbn [length] in IH |- *. lia.
Qed.

Lemma concat_nl_ends (lines : list string) :
  lines <> [] ->
  Forall (fun l => first_nonws l = true /\ last_nonws l = true) lines ->
  first_nonws (String.concat nl lines) = true /\ last_nonws (String.concat nl lines) = true.
Proof.
  intros Hne Hall. induction Hall as [|x r [Hf Hl] Hr IH]; [contradiction|].
  destruct r as [|y r]; [split; assumption|].
  rewrite concat_nl_cons2. split.
  - apply first_nonws_app_l. exact Hf.
  - change (String (ascii_of_nat 10) (String.concat nl (y :: r)))
      with (nl ++ String.concat nl (y :: r))%string.
    apply last_nonws_app_r, last_nonws_app_r. apply IH. discriminate.
Qed.

Lemma plan_line_props (item : string * string * string) :
  plan_item_ok item = true ->
  first_nonws (plan_line item) = true /\ last_nonws (plan_line item) = true
  /\ has_char (ascii_of_nat 10) (plan_line item) = false.
Proof.
  destruct item as [[d name] why]. intros Hok. cbn [plan_item_ok] in Hok.
  apply andb_true_iff in Hok as [Hok Hwnl]. apply negb_true_iff in Hwnl.
  apply andb_true_iff in Hok as [Hok Hwl].
  apply andb_true_iff in Hok as [Hok Hnnl]. apply negb_true_iff in Hnnl.
  do 4 (apply andb_true_iff in Hok as [Hok _]).
  apply andb_true_iff in Hok as [Hdf Hd].
  unfold plan_line. split; [|split].
  - apply first_nonws_app_l. exact Hdf.
  - apply last_nonws_app_r, last_nonws_app_r, last_nonws_app_r, last_nonws_app_r.
    exact Hwl.
  - rewrite !has_char_app, (digits_no_char (ascii_of_nat 10) _ Hd eq_refl), Hnnl, Hwnl.
    reflexivity.
Qed.

Lemma parse_plan_text (items : list (string * string * string)) :
  items <> [] ->
  forallb plan_item_ok items = true ->
  parse_plan (plan_text items) = map (fun item => snd (fst item)) items.
Proof.
  intros Hne Hok0. pose proof (proj1 (forallb_forall plan_item_ok items) Hok0) as Hok.
  assert (Hprops : Forall (fun l => (first_nonws l = true /\ last_nonws l = true)
                                   /\ has_char (ascii_of_nat 10) l = false)
                          (map plan_line items)).
  { apply Forall_forall. intros l Hl. apply in_map_iff in Hl as (it & <- & Hit).
    destruct (plan_line_props it (Hok it Hit)) as (? & ? & ?). auto. }
  assert (Hne' : map plan_line items <> []) by (destruct items; [contradiction|discriminate]).
  unfold parse_plan, plan_text, join.
  destruct (concat_nl_ends (map plan_line items) Hne'
              (Forall_impl _ (fun l H => proj1 H) Hprops)) as [Hf Hl].
  rewrite (strip_id _ Hf Hl). unfold split.
  rewrite split_fuel_concat_nl; [| exact Hne' | exact (Forall_impl _ (fun l H => proj2 H) Hprops)
                                | apply concat_nl_length].
  rewrite flat_map_concat_map, map_map.
  rewrite (map_ext_in (fun x => plan_step (plan_line x)) (fun it => [snd (fst it)]) items).
  2: { intros [[d name] why] Hit. apply plan_step_line. exact (Hok _ Hit). }
  clear. induction items as [|it r IH]; [reflexivity|]. cbn. rewrite IH. reflexivity.
Qed.

(** X15: When the model answers the planning prompt with a plan in the format the
    prompt asks for ([N. tool_name - reason] per line), [plan_investigation]
    returns exactly the list of tool names, in order. *)
Theorem plan_investigation_reads_numbered_plan llm self issue_id error_message items s :
  callback_never_raises self ->
  items <> [] ->
  forallb plan_item_ok items = true ->
  llm [SystemMessage "You are an expert debugger. Create an investigation plan.";
       HumanMessage (Prompts.planning_prompt issue_id error_message)] = plan_text items ->
  fst (plan_investigation llm self issue_id error_message s)
  = Ok (map (fun item => snd (fst item)) items).
Proof.
  intros Hcb Hne Hok Hllm. unfold plan_investigation, bind, ainvoke. rewrite Hllm.
  rewrite (parse_plan_text items Hne Hok). rewrite emit_ok by exact Hcb. reflexivity.
Qed.

Lemma prefix_app_str (a b : string) : String.prefix a (a ++ b)%string = true.
Proof.
  induction a as [|c a IH]; cbn; [destruct b; reflexivity|].
  destruct (ascii_dec c c) as [_|Hne]; [exact IH|contradiction].
Qed.

Lemma length_substring0 (s : string) m : String.length (substring 0 m s) = Nat.min m (String.length s).
Proof.
  revert m. induction s as [|c s IH]; intros m; destruct m; cbn; try reflexivity.
  rewrite IH. reflexivity.
Qed.

(** X16: The [result_preview] of a [tool_result] event is at most 203 characters
    long and starts with the first 200 characters of [str(result)]. *)
Theorem result_preview_bounded py_str (result : json) :
  String.length (result_preview py_str result) <= 203
  /\ String.prefix (substring 0 200 (py_str result)) (result_preview py_str result) = true.
Proof.
  unfold result_preview. destruct (Nat.ltb_spec 200 (String.length (py_str result))).
  - split.
    + rewrite length_app_str, length_substring0. cbn [String.length]. lia.
    + apply prefix_app_str.
  - rewrite (substring_all (py_str result) 200) by lia. split; [lia|].
    rewrite <- (append_nil_str (py_str result)) at 2. apply prefix_app_str.
Qed.

Lemma find_prefixed_after (p l : string) (xs ys : list string) j :
  Forall (fun x => startswith x p = false) xs ->
  startswith l p = true ->
  find_prefixed p (xs ++ l :: ys) j = Some (j + length xs).
Proof.
  intros Hxs Hl. revert j. induction Hxs as [|x xs Hx _ IH]; intros j; cbn.
  - rewrite Hl, Nat.add_0_r. reflexivity.
  - rewrite Hx, IH. f_equal. lia.
Qed.

(** X17: In the THINK branch of [_parse_llm_response], the reasoning is taken
    from the lines after the first [REASONING:] line, up to a fence or
    [ACTION:] line; the text on the [REASONING:] line itself is dropped. *)
Theorem think_reasoning_starts_after_marker_line pre l post i :
  i < length pre ->
  Forall (fun x => startswith x "REASONING:" = false) (skipn (S i) pre) ->
  startswith l "REASONING:" = true ->
  think_content (pre ++ l :: post) i
  = Some (PThink (strip (replace "REASONING:" "" (join " " (take_until_marker post))))).
Proof.
  intros Hi Hpre Hl. unfold think_content.
  rewrite skipn_app. replace (S i - length pre) with 0 by lia. cbn [skipn].
  rewrite (find_prefixed_after _ _ _ _ _ Hpre Hl), length_skipn. cbv beta iota.
  replace (S i + (length pre - S i)) with (length pre) by lia.
  replace (match pre ++ l :: post with [] => [] | _ :: l0 => skipn (length pre) l0 end)
    with (skipn (S (length pre)) (pre ++ l :: post)) by reflexivity.
  rewrite skipn_app, skipn_all2 by lia. replace (S (length pre) - length pre) with 1 by lia.
  reflexivity.
Qed.

Lemma int_body_bad_char (x : ascii) (s : string) acc b :
  is_digit x = false -> Ascii.eqb x "_"%char = false -> has_char x s = true ->
  int_body s acc b = None.
Proof.
  intros Hd Hu. revert acc b. induction s as [|c s IH]; intros acc b Hx; [discriminate|].
  cbn [has_char] in Hx. cbn [int_body].
  destruct (Ascii.eqb_spec x c) as [<-|Hne].
  - rewrite Hd, Hu. reflexivity.
  - cbn in Hx. destruct (is_digit c); [apply IH; exact Hx|].
    destruct (Ascii.eqb c "_"%char && b); [apply IH; exact Hx|reflexivity].
Qed.

(** [int(s)] fails on a string with a character that is not a digit, an
    underscore or a sign. *)
Lemma py_int_bad_char (x : ascii) (s : string) :
  is_digit x = false -> Ascii.eqb x "_"%char = false ->
  Ascii.eqb x "+"%char = false -> Ascii.eqb x "-"%char = false ->
  has_char x s = true -> py_int s = None.
Proof.
  intros Hd Hu Hp Hm Hx. destruct s as [|c r]; [reflexivity|]. unfold py_int.
  cbn [has_char] in Hx.
  destruct (Ascii.eqb_spec x c) as [<-|Hne].
  - rewrite Hp, Hm. apply (int_body_bad_char x); auto. cbn. rewrite Ascii.eqb_refl. reflexivity.
  - cbn in Hx.
    destruct (Ascii.eqb c "+"%char); [apply (int_body_bad_char x); auto|].
    destruct (Ascii.eqb c "-"%char).
    + rewrite (int_body_bad_char x r 0 false Hd Hu Hx). reflexivity.
    + apply (int_body_bad_char x); auto. cbn.
      apply orb_true_iff. right. exact Hx.
Qed.

(** X18: In the ANSWER branch of [_parse_llm_response], a confidence written as a
    fraction ([0.85]) or a percentage ([85%]) is not read by [int()] and
    becomes 50. *)
Theorem answer_fractional_confidence_reads_50 jl lines i rc conf fixes findings :
  answer_content jl lines i = Some (PAnswer rc conf fixes findings) ->
  contains "CONFIDENCE:" (join nl (skipn (S i) lines)) = true ->
  (has_char "."%char (field_line "CONFIDENCE:" (join nl (skipn (S i) lines)))
   || has_char "%"%char (field_line "CONFIDENCE:" (join nl (skipn (S i) lines)))) = true ->
  conf = 50%Z.
Proof.
  intros H Hc Hx. unfold answer_content in H. cbv zeta in H. rewrite Hc in H.
  assert (Hn : py_int (field_line "CONFIDENCE:" (join nl (skipn (S i) lines))) = None).
  { apply orb_true_iff in Hx as [Hx|Hx];
      [apply (py_int_bad_char "."%char) | apply (py_int_bad_char "%"%char)];
      first [reflexivity | exact Hx]. }
  rewrite Hn in H. injection H as _ <- _ _. reflexivity.
Qed.



(* ================================================================== *)
(** ** [_parse_llm_response] when [json.loads] raises *)

Lemma brackets_snoc n : (brackets n ++ "[")%string = String "["%char (brackets n).
Proof. induction n as [|n IH]; cbn; [reflexivity|]. rewrite IH. reflexivity. Qed.

Lemma brackets_rev n : rev_str (brackets n) = brackets n.
Proof. induction n as [|n IH]; cbn; [reflexivity|]. rewrite IH. apply brackets_snoc. Qed.

Lemma brackets_length n : String.length (brackets n) = n.
Proof. induction n as [|n IH]; cbn; congruence. Qed.

Lemma brackets_last_nonws n : last_nonws (brackets (S n)) = true.
Proof. unfold last_nonws. rewrite brackets_rev. reflexivity. Qed.

Lemma brackets_no_char c n : Ascii.eqb c "["%char = false -> has_char c (brackets n) = false.
Proof. intros Hc. induction n as [|n IH]; cbn; [reflexivity|]. rewrite Hc, IH. reflexivity. Qed.

Lemma index_brackets_none r n :
  String.index 0 (String "A"%char r) (brackets n) = None.
Proof. induction n as [|n IH]; cbn; [reflexivity|]. rewrite IH. reflexivity. Qed.

Lemma index_self_app (c : ascii) (a b : string) :
  String.index 0 (String c a) (String c a ++ b)%string = Some 0.
Proof.
  cbn [append String.index].
  pose proof (prefix_app_str (String c a) b) as H. cbn [append] in H. rewrite H.
  reflexivity.
Qed.

Lemma index_space_brackets_none r n :
  String.index 0 (String "A"%char r) (" " ++ brackets n)%string = None.
Proof. cbn. rewrite index_brackets_none. reflexivity. Qed.

Lemma replace_arguments_brackets n :
  replace "ARGUMENTS:" "" ("ARGUMENTS: " ++ brackets n) = (" " ++ brackets n)%string.
Proof.
  unfold replace, split.
  replace ("ARGUMENTS: " ++ brackets n)%string
    with ("ARGUMENTS:" ++ (" " ++ brackets n))%string by reflexivity.
  cbn [split_fuel]. rewrite index_self_app.
  rewrite Nat.add_0_l, substring_suffix by (rewrite !length_app_str; cbn [String.length]; lia).
  replace (substring 0 0 _) with "" by reflexivity.
  rewrite length_app_str. cbn [String.length Nat.add split_fuel].
  rewrite index_space_brackets_none. reflexivity.
Qed.

Lemma value_d_open_bracket room d f r :
  JsonLite.value_d room d (S f) (String "[" r) =
  if Nat.leb room d then inl (JsonLite.recursion_error "array") else
  match JsonLite.skip_ws r with
  | String c r' => if Ascii.eqb c "]"%char then inr (Some (JArr [], r'))
                   else JsonLite.elements_d room (S d) f (String "[" r) []
  | EmptyString => inr None
  end.
Proof. reflexivity. Qed.

Lemma elements_d_first room d f c r :
  JsonLite.elements_d room d (S f) (String c r) [] =
  match JsonLite.value_d room d f r with
  | inl e => inl e
  | inr (Some (v, r4)) =>
      match JsonLite.skip_ws r4 with
      | String e r5 as t =>
          if Ascii.eqb e "]"%char then inr (Some (JArr ([] ++ [v]), r5))
          else if Ascii.eqb e ","%char then JsonLite.elements_d room d f t ([] ++ [v])
          else inr None
      | EmptyString => inr None
      end
  | inr None => inr None
  end.
Proof. reflexivity. Qed.

Lemma value_d_brackets room k : forall d f,
  room < d + S k -> 2 * (room - d) < f ->
  JsonLite.value_d room d f (brackets (S k)) = inl (JsonLite.recursion_error "array").
Proof.
  induction k as [|k IH]; intros d f Hk Hf; (destruct f as [|f]; [lia|]);
    cbn [brackets]; rewrite value_d_open_bracket.
  - replace (Nat.leb room d) with true by (symmetry; apply Nat.leb_le; lia). reflexivity.
  - destruct (Nat.leb_spec room d); [reflexivity|].
    replace (JsonLite.skip_ws (String "[" (brackets k))) with (String "[" (brackets k))
      by reflexivity.
    cbn [Ascii.eqb Bool.eqb andb].
    destruct f as [|f]; [lia|]. rewrite elements_d_first.
    pose proof (IH (S d) f ltac:(lia) ltac:(lia)) as E. cbn [brackets] in E.
    rewrite E. reflexivity.
Qed.

Lemma py_json_loads_brackets room n :
  room < n ->
  JsonLite.py_json_loads room (brackets n) = inl (JsonLite.recursion_error "array").
Proof.
  intros H. destruct n as [|k]; [lia|]. unfold JsonLite.py_json_loads.
  rewrite value_d_brackets; [reflexivity| lia |].
  rewrite brackets_length. lia.
Qed.

Lemma parse_exc_deep room n :
  room < n ->
  _parse_llm_response_exc (JsonLite.py_json_loads room) (deep_arguments_reply n) =
  inl (JsonLite.recursion_error "array").
Proof.
  intros Hn. destruct n as [|k]; [lia|].
  unfold _parse_llm_response_exc.
  assert (Hs : strip (deep_arguments_reply (S k)) = deep_arguments_reply (S k)).
  { apply strip_id; [reflexivity|].
    replace (deep_arguments_reply (S k)) with
      (("ACTION: TOOL_CALL" ++ String (ascii_of_nat 10) "TOOL: get_stacktrace"
        ++ String (ascii_of_nat 10) "ARGUMENTS: ") ++ brackets (S k))%string
      by reflexivity.
    apply last_nonws_app_r. apply brackets_last_nonws. }
  assert (Hl : split nl (deep_arguments_reply (S k)) =
               ["ACTION: TOOL_CALL"; "TOOL: get_stacktrace"; ("ARGUMENTS: " ++ brackets (S k))%string]).
  { unfold split. unfold deep_arguments_reply, join.
    apply split_fuel_concat_nl; [discriminate| |].
    - repeat constructor. cbn [has_char append]. apply brackets_no_char. reflexivity.
    - cbn [length String.concat]. rewrite !length_app_str. cbn [String.length]. lia. }
  rewrite Hs, Hl.
  replace (first_action_line _ 0) with (Some (0, "ACTION: TOOL_CALL")) by reflexivity.
  unfold action_content_exc.
  replace (strip (replace "ACTION:" "" "ACTION: TOOL_CALL")) with "TOOL_CALL" by reflexivity.
  replace (String.eqb "TOOL_CALL" "THINK") with false by reflexivity.
  replace (String.eqb "TOOL_CALL" "TOOL_CALL") with true by reflexivity.
  unfold tool_call_content_exc. cbn [skipn tool_call_scan_exc].
  replace (startswith "TOOL: get_stacktrace" "TOOL:") with true by reflexivity.
  replace (startswith ("ARGUMENTS: " ++ brackets (S k)) "TOOL:") with false by reflexivity.
  replace (startswith ("ARGUMENTS: " ++ brackets (S k)) "ARGUMENTS:") with true
    by reflexivity.
  unfold arguments_at_exc.
  rewrite replace_arguments_brackets, strip_leading_space
    by (reflexivity || apply brackets_last_nonws).
  replace (take_until_marker _) with (@nil string) by reflexivity.
  cbn [fold_left]. rewrite py_json_loads_brackets by lia. reflexivity.
Qed.

Lemma tool_call_scan_exc_ok jl :
  (forall t, exists r, jl t = inr r) ->
  forall rest lines j tn a, exists x, tool_call_scan_exc jl lines rest j tn a = inr x.
Proof.
  intros Hjl rest. induction rest as [|l rest IH]; intros lines j tn a; cbn [tool_call_scan_exc].
  - eauto.
  - destruct (startswith l "TOOL:"); [apply IH|].
    destruct (startswith l "ARGUMENTS:"); [|apply IH].
    unfold arguments_at_exc.
    match goal with |- context [jl ?t] => destruct (Hjl t) as [r Hr]; rewrite Hr end.
    apply IH.
Qed.

Lemma tool_call_scan_exc_raise jl e :
  forall rest lines j tn a, tool_call_scan_exc jl lines rest j tn a = inl e ->
  exists t, jl t = inl e.
Proof.
  intros rest. induction rest as [|l rest IH]; intros lines j tn a; cbn [tool_call_scan_exc].
  - discriminate.
  - destruct (startswith l "TOOL:"); [apply IH|].
    destruct (startswith l "ARGUMENTS:"); [|apply IH].
    unfold arguments_at_exc.
    match goal with |- context [jl ?t] => destruct (jl t) as [e'|r] eqn:Hr end.
    + intros [= <-]. eauto.
    + apply IH.
Qed.




(* ================================================================== *)
(** ** Witnesses of the extra lemmas at concrete inputs *)

Ltac solve_skipped :=
  repeat constructor; eexists; split; [reflexivity | left; reflexivity].

Lemma issue_details_tags_at_most_five_witness :
  exists l, JArr (map JStr ["browser"; "os"; "device"; "url"; "release"]) = JArr l
            /\ length l <= 5.
Proof.
  eapply (issue_details_tags_at_most_five
            (demo_source (demo_issue (JInt 150) (JInt 20) [])) "42").
  - vm_compute. reflexivity.
  - vm_compute. reflexivity.
Defined.

Lemma issue_details_bad_tag_fails_witness :
  get_sentry_issue_details
    (demo_source [("tags", JArr (map demo_tag ["a"; "b"; "c"; "d"; "e"; "f"]
                                 ++ [JObj [("value", JStr "v")]]))]) "42"
  = JObj [("error", JStr "'key'"); ("issue_id", JStr "42")].
Proof.
  apply (issue_details_bad_tag_fails _ "42"
           [("tags", JArr (map demo_tag ["a"; "b"; "c"; "d"; "e"; "f"]
                           ++ [JObj [("value", JStr "v")]]))]
           (map demo_tag ["a"; "b"; "c"; "d"; "e"; "f"]) [("value", JStr "v")] []).
  - reflexivity.
  - reflexivity.
  - repeat constructor; do 2 eexists; split; reflexivity.
  - reflexivity.
Defined.

Lemma stacktrace_first_exception_with_values_witness :
  get_stacktrace (demo_events (demo_event [request_entry; empty_exception_entry;
                                           JObj exception_entry; request_entry])) "42"
  = JObj [("type", JStr "ValueError"); ("value", JStr "bad input");
          ("stacktrace", JObj []); ("mechanism", JObj [])].
Proof.
  apply (stacktrace_first_exception_with_values _ "42"
           (demo_event [request_entry; empty_exception_entry;
                        JObj exception_entry; request_entry]) []
           [request_entry; empty_exception_entry] [request_entry]
           exception_entry [("values", JArr [JObj value_error])] value_error []).
  - reflexivity.
  - reflexivity.
  - constructor; [solve_skipped|].
    constructor; [|constructor].
    eexists; split; [reflexivity|right; eexists; split; reflexivity].
  - reflexivity.
  - reflexivity.
  - reflexivity.
Defined.

Lemma stacktrace_fallback_counts_entries_witness :
  get_stacktrace (demo_events (demo_event [request_entry; empty_exception_entry])) "42"
  = JObj [("event_id", JStr "ev1"); ("platform", JStr "python");
          ("message", JStr ""); ("entries", JInt 2)].
Proof.
  apply (stacktrace_fallback_counts_entries _ "42"
           (demo_event [request_entry; empty_exception_entry]) []
           [request_entry; empty_exception_entry]).
  - reflexivity.
  - reflexivity.
  - constructor; [solve_skipped|].
    constructor; [|constructor].
    eexists; split; [reflexivity|right; eexists; split; reflexivity].
Defined.

Lemma frequency_monotone_in_count_witness :
  frequency_rank "medium" <= frequency_rank "high".
Proof.
  apply (frequency_monotone_in_count
           (demo_source (demo_issue (JStr "50") (JInt 3) []))
           (demo_source (demo_issue (JInt 150) (JInt 3) [])) "42"
           (demo_issue (JStr "50") (JInt 3) []) (demo_issue (JInt 150) (JInt 3) [])
           50 150).
  - reflexivity.
  - reflexivity.
  - reflexivity.
  - reflexivity.
  - lia.
  - vm_compute. reflexivity.
  - vm_compute. reflexivity.
Defined.

Lemma frequency_bad_count_is_error_witness :
  exists e, analyze_error_frequency (demo_source (demo_issue (JStr "many") (JInt 3) [])) "42"
            = JObj [("error", JStr e); ("issue_id", JStr "42"); ("trend", JStr "unknown")].
Proof.
  eapply (frequency_bad_count_is_error _ "42" (demo_issue (JStr "many") (JInt 3) [])).
  - reflexivity.
  - vm_compute. reflexivity.
Defined.

Lemma frequency_without_stats_or_count_witness :
  analyze_error_frequency (demo_source [("id", JStr "42"); ("firstSeen", JStr "t0")]) "42"
  = JObj [("issue_id", JStr "42"); ("total_occurrences", JInt 0);
          ("trend", JStr "unknown"); ("first_seen", JStr "t0");
          ("last_seen", JNull); ("frequency", JStr "low")].
Proof.
  apply (frequency_without_stats_or_count _ "42" [("id", JStr "42"); ("firstSeen", JStr "t0")]);
    reflexivity.
Defined.


Lemma frequency_constant_traffic_stable_witness :
  result_field (analyze_error_frequency
                  (demo_source (demo_issue (JInt 12) (JInt 1)
                                  (map (fun t => JArr [t; JInt 4]) [JInt 1; JInt 2; JInt 3])))
                  "42") "trend"
  = Some (JStr "stable").
Proof.
  rewrite (frequency_constant_traffic_stable _ "42"
             (demo_issue (JInt 12) (JInt 1) (map (fun t => JArr [t; JInt 4]) [JInt 1; JInt 2; JInt 3]))
             [("24h", JArr (map (fun t => JArr [t; JInt 4]) [JInt 1; JInt 2; JInt 3]))]
             [JInt 1; JInt 2; JInt 3] 4 12).
  - vm_compute. reflexivity.
  - reflexivity.
  - reflexivity.
  - reflexivity.
  - reflexivity.
  - cbn. lia.
  - lia.
Defined.

Lemma user_impact_monotone_witness :
  impact_rank "medium" <= impact_rank "critical".
Proof.
  apply (user_impact_monotone
           (demo_source (demo_issue (JInt 150) (JInt 50) []))
           (demo_source (demo_issue (JInt 9000) (JInt 2000) [])) "42"
           (demo_issue (JInt 150) (JInt 50) []) (demo_issue (JInt 9000) (JInt 2000) [])
           50 2000 150 9000).
  - reflexivity.
  - reflexivity.
  - reflexivity.
  - reflexivity.
  - reflexivity.
  - reflexivity.
  - intros _. vm_compute. reflexivity.
  - intros _. vm_compute. reflexivity.
  - lia.
  - vm_compute. reflexivity.
  - vm_compute. reflexivity.
Defined.

Lemma user_impact_string_count_fails_witness :
  get_user_impact (demo_source (demo_issue (JStr "150") (JInt 3) [])) "42"
  = [("error", PJson (JStr "unsupported operand type(s) for /: 'str' and 'int'"));
     ("issue_id", PJson (JStr "42")); ("affected_users", PJson (JInt 0));
     ("impact_level", PJson (JStr "unknown"))].
Proof.
  apply (user_impact_string_count_fails _ "42" (demo_issue (JStr "150") (JInt 3) []) 3 "150").
  - reflexivity.
  - reflexivity.
  - lia.
  - reflexivity.
Defined.

Lemma user_impact_no_users_low_witness :
  get_user_impact (demo_source (demo_issue (JInt 7) (JInt 0) [])) "42"
  = [("issue_id", PJson (JStr "42")); ("affected_users", PJson (JInt 0));
     ("total_occurrences", PJson (JInt 7));
     ("impact_level", PJson (JStr "low")); ("avg_per_user", PJson (JInt 0))].
Proof.
  apply (user_impact_no_users_low _ "42" (demo_issue (JInt 7) (JInt 0) []) 0).
  - reflexivity.
  - reflexivity.
  - lia.
Defined.

Lemma investigate_nudge_reaches_model_once_witness :
  exists r s' rs rN,
    investigate JsonLite.json_loads dumps_stub str_stub think_stub quiet_tools
      (mkAgent (Some quiet_callback) 3) "X" "boom" s0 = (Ok r, s')
    /\ length rs = 3 - 1
    /\ conversation_history s'
       = initial_history "X" "boom" ++ map AIMessage rs
         ++ [HumanMessage Prompts.max_iterations_nudge; AIMessage rN;
             HumanMessage Prompts.max_iterations_nudge]
    /\ llm_calls s'
       = llm_calls s0
         ++ map (fun k => initial_history "X" "boom" ++ map AIMessage (firstn k rs))
                (seq 0 (3 - 1))
         ++ [initial_history "X" "boom" ++ map AIMessage rs
             ++ [HumanMessage Prompts.max_iterations_nudge]].
Proof.
  apply (investigate_nudge_reaches_model_once JsonLite.json_loads dumps_stub str_stub
           think_stub quiet_tools (mkAgent (Some quiet_callback) 3) "X" "boom" s0).
  - intros cb E ev. injection E as <-. reflexivity.
  - cbn. lia.
Defined.

Lemma investigate_event_stream_witness :
  exists r s' steps,
    investigate JsonLite.json_loads dumps_stub str_stub think_stub quiet_tools
      (mkAgent (Some quiet_callback) 3) "X" "boom" s0 = (Ok r, s')
    /\ events s'
       = events s0
         ++ [EvStep "start" (JObj [("issue_id", JStr "X"); ("error_message", JStr "boom");
                                   ("mode", JStr "autonomous")])]
         ++ steps ++ [EvComplete "X" "boom" r "success"]
    /\ length steps = 2 * 3
    /\ Forall (fun e => exists t d, e = EvStep t d) steps.
Proof.
  apply (investigate_event_stream JsonLite.json_loads dumps_stub str_stub think_stub
           quiet_tools (mkAgent (Some quiet_callback) 3) quiet_callback "X" "boom" s0).
  - reflexivity.
  - intros ev. reflexivity.
Defined.

Lemma plan_investigation_reads_numbered_plan_witness :
  fst (plan_investigation (fun _ => plan_text demo_plan) (mkAgent None 15) "X" "boom" s0)
  = Ok ["get_stacktrace"; "get_user_impact"].
Proof.
  apply (plan_investigation_reads_numbered_plan (fun _ => plan_text demo_plan)
           (mkAgent None 15) "X" "boom" demo_plan s0).
  - intros cb E. discriminate E.
  - discriminate.
  - vm_compute. reflexivity.
  - reflexivity.
Defined.

Lemma think_reasoning_starts_after_marker_line_witness :
  think_content (["ACTION: THINK"; "scratch"] ++ "REASONING: dropped" :: ["first"; "second"; "ACTION: TOOL_CALL"]) 0
  = Some (PThink (strip (replace "REASONING:" "" (join " " (take_until_marker ["first"; "second"; "ACTION: TOOL_CALL"]))))).
Proof.
  apply think_reasoning_starts_after_marker_line.
  - cbn. lia.
  - vm_compute. repeat constructor.
  - reflexivity.
Defined.

Lemma answer_fractional_confidence_reads_50_witness :
  exists rc conf fixes findings,
    answer_content JsonLite.json_loads ["ACTION: ANSWER"; "ROOT_CAUSE: x"; "CONFIDENCE: 0.85"] 0
    = Some (PAnswer rc conf fixes findings) /\ conf = 50%Z.
Proof.
  do 4 eexists. split.
  - vm_compute. reflexivity.
  - eapply (answer_fractional_confidence_reads_50 JsonLite.json_loads
              ["ACTION: ANSWER"; "ROOT_CAUSE: x"; "CONFIDENCE: 0.85"] 0).
    + vm_compute. reflexivity.
    + vm_compute. reflexivity.
    + vm_compute. reflexivity.
Defined.
